(** * The message compression filter of gRPC core

    A shallow embedding of
    [src/core/ext/filters/http/message_compress/compression_filter.cc]:
    the construction of [CompressionFilter], [CompressMessage],
    [DecompressMessage] and the two [TakeAndRun] negotiation steps, with the
    properties the design document states about them.  Of the call promises
    of the client and server filters the setup and the bodies of the legs are
    embedded; the scheduling of the legs beside the rest of the call is not.

    Conventions.
    - [uint32_t] flags are [Z] with bit operations written with [Z.land],
      [Z.lor]; the only complement, [~GRPC_WRITE_INTERNAL_COMPRESS], is taken
      in 32 bits ([uint32_not]).
    - Sizes ([size_t], [uint32_t] limits) are [N]: they are only compared, and
      widening [uint32_t] to [size_t] keeps the value.
    - A [MessageHandle] owns one [Message]; the functions mutate the object
      behind the handle.  The object is the [st_message] component of the
      state the monad [M] threads, next to the trace of calls into the
      collaborators and of [gpr_log] lines. *)

From Stdlib Require Import ZArith NArith List String Bool Lia DecimalString.
Import ListNotations.
Local Open Scope string_scope.
Local Open Scope list_scope.
Local Open Scope Z_scope.

(** ** Algorithms and algorithm sets *)

(** Modelled from the spec: the enum [grpc_compression_algorithm] is declared
    in [grpc/impl/compression_types.h], which is not part of the sources at
    hand.  An algorithm is an identifier with the sentinel none; as a C enum
    it is an integer, numbered here in declaration order, and integers that
    name no algorithm inhabit the type too (the constructor of the filter
    handles a default whose name lookup fails). *)
Definition grpc_compression_algorithm : Type := Z.

Definition GRPC_COMPRESS_NONE : grpc_compression_algorithm := 0.
Definition GRPC_COMPRESS_DEFLATE : grpc_compression_algorithm := 1.
Definition GRPC_COMPRESS_GZIP : grpc_compression_algorithm := 2.
Definition GRPC_COMPRESS_ALGORITHMS_COUNT : Z := 3.

(** Modelled from the spec: [CompressionAlgorithmSet] (declared in
    [compression_internal.h]) is a bitset-like value of enabled algorithms,
    one bit per algorithm below [GRPC_COMPRESS_ALGORITHMS_COUNT]. *)
Record CompressionAlgorithmSet : Type := mkAlgorithmSet { set_ : Z }.

Definition IsSet (s : CompressionAlgorithmSet)
  (algorithm : grpc_compression_algorithm) : bool :=
  (0 <=? algorithm) && (algorithm <? GRPC_COMPRESS_ALGORITHMS_COUNT)
  && Z.testbit (set_ s) algorithm.

(** ** Messages *)

Definition SliceBuffer : Type := list Byte.byte.

Definition Length (b : SliceBuffer) : N := N.of_nat (List.length b).

Record Message : Type := mkMessage {
  payload : SliceBuffer;
  flags : Z
}.

(** Modelled from the spec: the write flags are macros of
    [grpc/impl/codegen/grpc_types.h], which is not part of the sources at
    hand.  Section 3 names the three the filter reads and writes (do not
    compress, payload is internally compressed, test-only was compressed);
    each is one bit of the 32-bit flag word, placed as the public header
    places it. *)
Definition GRPC_WRITE_NO_COMPRESS : Z := 0x00000002.
Definition GRPC_WRITE_INTERNAL_COMPRESS : Z := 0x80000000.
Definition GRPC_WRITE_INTERNAL_TEST_ONLY_WAS_COMPRESSED : Z := 0x40000000.

(** [~x] on a [uint32_t]. *)
Definition uint32_not (x : Z) : Z := Z.lnot x mod 2 ^ 32.

(** [(flags & mask) != 0]. *)
Definition has_flag (fl mask : Z) : bool := negb (Z.land fl mask =? 0).

(** ** Statuses *)

Inductive StatusCode : Type :=
| kOk
| kInternal
| kResourceExhausted.

Record Status : Type := mkStatus {
  code : StatusCode;
  message : string
}.

Definition InternalError (msg : string) : Status := mkStatus kInternal msg.
Definition ResourceExhaustedError (msg : string) : Status :=
  mkStatus kResourceExhausted msg.

Inductive StatusOr (A : Type) : Type :=
| StatusOr_ok (value : A)
| StatusOr_error (status : Status).
Arguments StatusOr_ok {A} value.
Arguments StatusOr_error {A} status.

(** Decimal rendering of an unsigned value, as [%u] and [%d] of
    [absl::StrFormat] print one. *)
Definition dec (n : N) : string := NilZero.string_of_uint (N.to_uint n).

(** ** Traces *)

Inductive gpr_log_severity : Type :=
| GPR_INFO
| GPR_ERROR.

(** An argument of a [gpr_log] call.  The savings percentage of the
    compression trace line is a [float] computed from the two sizes; it is
    kept as the two sizes. *)
Inductive log_arg : Type :=
| LogInt (z : Z)
| LogStr (s : string)
| LogSavings (before_size after_size : N).

(** What a call leaves behind, in order: the [gpr_log] lines (format and
    arguments as passed) and the calls into the byte-level routines. *)
Inductive event : Type :=
| EvLog (severity : gpr_log_severity) (format : string) (args : list log_arg)
| EvCompress (algorithm : grpc_compression_algorithm) (input : SliceBuffer)
| EvDecompress (algorithm : grpc_compression_algorithm) (input : SliceBuffer).

(** ** The monad of the message transformers *)

Record state : Type := mkState {
  st_message : Message;
  st_events : list event
}.

(** A run either returns, or stops at a failed [GPR_ASSERT]. *)
Inductive outcome (A : Type) : Type :=
| Done (value : A) (s : state)
| Aborted (s : state).
Arguments Done {A} value s.
Arguments Aborted {A} s.

Definition M (A : Type) : Type := state -> outcome A.

Definition ret {A : Type} (a : A) : M A := fun s => Done a s.

Definition bind {A B : Type} (c : M A) (k : A -> M B) : M B :=
  fun s => match c s with
           | Done a s' => k a s'
           | Aborted s' => Aborted s'
           end.

Declare Scope monad_scope.
Delimit Scope monad_scope with monad.
Notation "x <- c ;; k" := (bind c (fun x => k))
  (at level 61, c at next level, right associativity) : monad_scope.
Notation "' pat <- c ;; k" := (bind c (fun x => match x with pat => k end))
  (at level 61, pat pattern, c at next level, right associativity) : monad_scope.
Notation "c ;; k" := (bind c (fun _ => k))
  (at level 61, right associativity) : monad_scope.
Local Open Scope monad_scope.

(** The handle of the message in flight. *)
Definition MessageHandle : Type := unit.

(** [message->payload()] and [message->flags()]. *)
Definition get_payload (_ : MessageHandle) : M SliceBuffer :=
  fun s => Done (payload (st_message s)) s.

Definition get_flags (_ : MessageHandle) : M Z :=
  fun s => Done (flags (st_message s)) s.

(** [payload->Swap(&other)], seen from the message: the payload becomes
    [other]. *)
Definition swap_payload (_ : MessageHandle) (other : SliceBuffer) : M unit :=
  fun s => Done tt (mkState (mkMessage other (flags (st_message s)))
                            (st_events s)).

(** Assignment through [message->mutable_flags()]. *)
Definition set_flags (_ : MessageHandle) (fl : Z) : M unit :=
  fun s => Done tt (mkState (mkMessage (payload (st_message s)) fl)
                            (st_events s)).

Definition emit (e : event) : M unit :=
  fun s => Done tt (mkState (st_message s) (st_events s ++ [e])).

Definition gpr_log (severity : gpr_log_severity) (format : string)
  (args : list log_arg) : M unit :=
  emit (EvLog severity format args).

(** [GPR_ASSERT(x)] of [grpc/support/log.h]: the process aborts when [x] is
    false. *)
Definition GPR_ASSERT (x : bool) : M unit :=
  fun s => if x then Done tt s else Aborted s.

Definition when (b : bool) (c : M unit) : M unit :=
  if b then c else ret tt.

Definition value_or {A : Type} (o : option A) (default : A) : A :=
  match o with
  | Some a => a
  | None => default
  end.

Definition has_value {A : Type} (o : option A) : bool :=
  match o with
  | Some _ => true
  | None => false
  end.

(** ** The collaborators

    What the filter calls and the sources at hand do not define: the trace
    flag, the two name tables of the compression library, the byte-level
    routines of [message_compress.h] and the index the message-size parser
    registered.  [grpc_msg_compress] and [grpc_msg_decompress] return their
    [int] result and what they wrote to the output buffer; they read their
    input buffer and leave it as it is. *)
Class Collaborators : Type := mkCollaborators {
  grpc_compression_trace : bool;
  grpc_compression_algorithm_name : grpc_compression_algorithm -> option string;
  CompressionAlgorithmAsString : grpc_compression_algorithm -> string;
  grpc_msg_compress :
    grpc_compression_algorithm -> SliceBuffer -> Z * SliceBuffer;
  grpc_msg_decompress :
    grpc_compression_algorithm -> SliceBuffer -> Z * SliceBuffer;
  MessageSizeParser_ParserIndex : N
}.

(** ** Channel arguments *)

(** Modelled from the spec: [ChannelArgs] and its typed readers
    ([channel_args.h], [message_size_filter.h], [compression_internal.h]) are
    not part of the sources at hand.  The recognised options are the five of
    section 4.1, each optional but the enabled set, which its reader always
    produces. *)
Record ChannelArgs : Type := mkChannelArgs {
  max_receive_message_size : option N;
  default_compression_algorithm : option grpc_compression_algorithm;
  enabled_compression_algorithms : CompressionAlgorithmSet;
  enable_per_message_compression : option bool;
  enable_per_message_decompression : option bool
}.

(** Modelled from the spec: the two boolean options [GetBool] is asked for,
    and the readers of the constructor, each returning its option as the
    channel arguments hold it. *)
Inductive bool_arg : Type :=
| GRPC_ARG_ENABLE_PER_MESSAGE_COMPRESSION
| GRPC_ARG_ENABLE_PER_MESSAGE_DECOMPRESSION.

Definition GetMaxRecvSizeFromChannelArgs (args : ChannelArgs) : option N :=
  max_receive_message_size args.

Definition DefaultCompressionAlgorithmFromChannelArgs (args : ChannelArgs)
  : option grpc_compression_algorithm :=
  default_compression_algorithm args.

Definition CompressionAlgorithmSet_FromChannelArgs (args : ChannelArgs)
  : CompressionAlgorithmSet :=
  enabled_compression_algorithms args.

Definition GetBool (args : ChannelArgs) (name : bool_arg) : option bool :=
  match name with
  | GRPC_ARG_ENABLE_PER_MESSAGE_COMPRESSION =>
      enable_per_message_compression args
  | GRPC_ARG_ENABLE_PER_MESSAGE_DECOMPRESSION =>
      enable_per_message_decompression args
  end.

(** ** Metadata and per-call limits *)

(** Modelled from the spec: [grpc_metadata_batch] ([metadata_batch.h]) maps
    typed keys to values, with get, set and take (read and remove) by key.
    The three keys of the filter are fields; what else the batch holds is
    carried along untouched. *)
Record grpc_metadata_batch : Type := mkMetadata {
  GrpcInternalEncodingRequest : option grpc_compression_algorithm;
  GrpcAcceptEncodingMetadata : option CompressionAlgorithmSet;
  GrpcEncodingMetadata : option grpc_compression_algorithm;
  other_metadata : list (string * string)
}.

(** [Take(GrpcInternalEncodingRequest())]: the value, and the batch without
    it. *)
Definition Take_GrpcInternalEncodingRequest (md : grpc_metadata_batch)
  : option grpc_compression_algorithm * grpc_metadata_batch :=
  (GrpcInternalEncodingRequest md,
   mkMetadata None (GrpcAcceptEncodingMetadata md) (GrpcEncodingMetadata md)
     (other_metadata md)).

(** [Set(GrpcAcceptEncodingMetadata(), v)] and
    [Set(GrpcEncodingMetadata(), v)]. *)
Definition Set_GrpcAcceptEncodingMetadata (md : grpc_metadata_batch)
  (v : CompressionAlgorithmSet) : grpc_metadata_batch :=
  mkMetadata (GrpcInternalEncodingRequest md) (Some v)
    (GrpcEncodingMetadata md) (other_metadata md).

Definition Set_GrpcEncodingMetadata (md : grpc_metadata_batch)
  (v : grpc_compression_algorithm) : grpc_metadata_batch :=
  mkMetadata (GrpcInternalEncodingRequest md) (GrpcAcceptEncodingMetadata md)
    (Some v) (other_metadata md).

(** Modelled from the spec: the per-call message size limits of the service
    config ([MessageSizeParsedConfig]), looked up in the call context by the
    index of their parser; the lookup may find nothing. *)
Record MessageSizeParsedConfig : Type := mkLimits {
  max_send_size : option N;
  max_recv_size : option N
}.

Definition grpc_call_context : Type := N -> option MessageSizeParsedConfig.

Definition GetFromCallContext (ctx : grpc_call_context) (index : N)
  : option MessageSizeParsedConfig :=
  ctx index.

(** ** The filter *)

Record CompressionFilter : Type := mkCompressionFilter {
  max_recv_size_ : option N;
  message_size_service_config_parser_index_ : N;
  default_compression_algorithm_ : grpc_compression_algorithm;
  enabled_compression_algorithms_ : CompressionAlgorithmSet;
  enable_compression_ : bool;
  enable_decompression_ : bool
}.

(** [PRIdPTR] and [PRIuPTR] of [inttypes.h] on an LP64 platform. *)
Definition PRIdPTR : string := "ld".
Definition PRIuPTR : string := "lu".

(** Modelled from the spec: [PipeMapper<MessageHandle>::TakeAndRun]
    ([map_pipe.h]) is not part of the sources at hand.  Section 4.4: the task
    it returns pumps the stream to completion, applies the transform to each
    item in order and forwards the result; when the transform fails the task
    ends with that failure and does not forward the failing item.  A pump that
    meets a failed assertion stops there. *)
Inductive pump_end : Type :=
| PumpOk
| PumpFailed (status : Status)
| PumpAborted.

Record pump_result : Type := mkPump {
  forwarded : list Message;
  pump_status : pump_end;
  pump_events : list event
}.

Fixpoint PipeMapper_TakeAndRun (fn : MessageHandle -> M (StatusOr MessageHandle))
  (pipe : list Message) (events : list event) : pump_result :=
  match pipe with
  | [] => mkPump [] PumpOk events
  | m :: rest =>
      match fn tt (mkState m events) with
      | Aborted s => mkPump [] PumpAborted (st_events s)
      | Done (StatusOr_error status) s =>
          mkPump [] (PumpFailed status) (st_events s)
      | Done (StatusOr_ok _) s =>
          let r := PipeMapper_TakeAndRun fn rest (st_events s) in
          mkPump (st_message s :: forwarded r) (pump_status r) (pump_events r)
      end
  end.

Section Filter.
Context {env : Collaborators}.

(** [CompressionFilter::CompressionFilter]: the filter and the diagnostics
    logged while building it. *)
Definition CompressionFilter_new (args : ChannelArgs)
  : CompressionFilter * list event :=
  let this :=
    mkCompressionFilter
      (GetMaxRecvSizeFromChannelArgs args)
      MessageSizeParser_ParserIndex
      (value_or (DefaultCompressionAlgorithmFromChannelArgs args)
         GRPC_COMPRESS_NONE)
      (CompressionAlgorithmSet_FromChannelArgs args)
      (value_or (GetBool args GRPC_ARG_ENABLE_PER_MESSAGE_COMPRESSION) true)
      (value_or (GetBool args GRPC_ARG_ENABLE_PER_MESSAGE_DECOMPRESSION) true)
  in
  if negb (IsSet (enabled_compression_algorithms_ this)
             (default_compression_algorithm_ this))
  then
    let name :=
      match grpc_compression_algorithm_name
              (default_compression_algorithm_ this) with
      | Some name => name
      | None => "<unknown>"
      end in
    (mkCompressionFilter
       (max_recv_size_ this)
       (message_size_service_config_parser_index_ this)
       GRPC_COMPRESS_NONE
       (enabled_compression_algorithms_ this)
       (enable_compression_ this)
       (enable_decompression_ this),
     [EvLog GPR_ERROR
        "default compression algorithm %s not enabled: switching to none"
        [LogStr name]])
  else (this, []).

(** [ClientCompressionFilter::Create] and [ServerCompressionFilter::Create]:
    both return the constructed filter. *)
Definition Create (args : ChannelArgs)
  : StatusOr CompressionFilter * list event :=
  let (filter, diagnostics) := CompressionFilter_new args in
  (StatusOr_ok filter, diagnostics).

(** A call of [grpc_msg_compress], recorded in the trace. *)
Definition call_grpc_msg_compress (algorithm : grpc_compression_algorithm)
  (input : SliceBuffer) : M (Z * SliceBuffer) :=
  emit (EvCompress algorithm input) ;;
  ret (grpc_msg_compress algorithm input).

(** A call of [grpc_msg_decompress], recorded in the trace. *)
Definition call_grpc_msg_decompress (algorithm : grpc_compression_algorithm)
  (input : SliceBuffer) : M (Z * SliceBuffer) :=
  emit (EvDecompress algorithm input) ;;
  ret (grpc_msg_decompress algorithm input).

(** [CompressionFilter::CompressMessage]. *)
Definition CompressMessage (filter : CompressionFilter)
  (message : MessageHandle) (algorithm : grpc_compression_algorithm)
  : M MessageHandle :=
  when grpc_compression_trace
    (p <- get_payload message ;;
     fl <- get_flags message ;;
     gpr_log GPR_ERROR
       ("CompressMessage: len=%" ++ PRIdPTR ++ " alg=%d flags=%d")
       [LogInt (Z.of_N (Length p)); LogInt algorithm; LogInt fl]) ;;
  fl <- get_flags message ;;
  if (algorithm =? GRPC_COMPRESS_NONE) || negb (enable_compression_ filter)
     || negb (Z.land fl (Z.lor GRPC_WRITE_NO_COMPRESS
                            GRPC_WRITE_INTERNAL_COMPRESS) =? 0)
  then ret message
  else
    p <- get_payload message ;;
    ' (r, tmp) <- call_grpc_msg_compress algorithm p ;;
    let did_compress := negb (r =? 0) in
    if did_compress then
      when grpc_compression_trace
        (let before_size := Length p in
         let after_size := Length tmp in
         let algo_name := grpc_compression_algorithm_name algorithm in
         GPR_ASSERT (has_value algo_name) ;;
         gpr_log GPR_INFO
           ("Compressed[%s] %" ++ PRIuPTR ++ " bytes vs. %" ++ PRIuPTR
            ++ " bytes (%.2f%% savings)")
           [LogStr (value_or algo_name ""); LogInt (Z.of_N before_size);
            LogInt (Z.of_N after_size); LogSavings before_size after_size]) ;;
      swap_payload message tmp ;;
      fl <- get_flags message ;;
      set_flags message (Z.lor fl GRPC_WRITE_INTERNAL_COMPRESS) ;;
      ret message
    else
      when grpc_compression_trace
        (let algo_name := grpc_compression_algorithm_name algorithm in
         GPR_ASSERT (has_value algo_name) ;;
         gpr_log GPR_INFO
           ("Algorithm '%s' enabled but decided not to compress. Input size: "
            ++ "%" ++ PRIuPTR)
           [LogStr (value_or algo_name ""); LogInt (Z.of_N (Length p))]) ;;
      ret message.

(** [CompressionFilter::DecompressMessage]. *)
Definition DecompressMessage (filter : CompressionFilter)
  (message : MessageHandle) (algorithm : grpc_compression_algorithm)
  (max_recv_message_length : option N) : M (StatusOr MessageHandle) :=
  when grpc_compression_trace
    (p <- get_payload message ;;
     gpr_log GPR_ERROR
       ("DecompressMessage: len=%" ++ PRIdPTR ++ " max=%d alg=%d")
       [LogInt (Z.of_N (Length p));
        LogInt (Z.of_N (value_or max_recv_message_length 4294967295%N));
        LogInt algorithm]) ;;
  p <- get_payload message ;;
  (* [*max_recv_message_length] is read only where [has_value] holds. *)
  if has_value max_recv_message_length
     && (value_or max_recv_message_length 0 <? Length p)%N
  then
    ret (StatusOr_error (ResourceExhaustedError
           ("Received message larger than max (" ++ dec (Length p) ++ " vs. "
            ++ dec (value_or max_recv_message_length 0%N) ++ ")")))
  else
    fl <- get_flags message ;;
    if negb (enable_decompression_ filter)
       || (Z.land fl GRPC_WRITE_INTERNAL_COMPRESS =? 0)
    then ret (StatusOr_ok message)
    else
      p <- get_payload message ;;
      ' (r, decompressed_slices) <- call_grpc_msg_decompress algorithm p ;;
      if r =? 0 then
        ret (StatusOr_error (InternalError
               ("Unexpected error decompressing data for algorithm "
                ++ CompressionAlgorithmAsString algorithm)))
      else
        swap_payload message decompressed_slices ;;
        fl <- get_flags message ;;
        set_flags message (Z.land fl (uint32_not GRPC_WRITE_INTERNAL_COMPRESS)) ;;
        fl <- get_flags message ;;
        set_flags message
          (Z.lor fl GRPC_WRITE_INTERNAL_TEST_ONLY_WAS_COMPRESSED) ;;
        ret (StatusOr_ok message).

(** [CompressionFilter::DecompressLoop::TakeAndRun], in the call context
    [ctx] that [GetContext<grpc_call_context_element>()] yields. *)
Definition DecompressLoop_TakeAndRun (filter : CompressionFilter)
  (ctx : grpc_call_context) (algorithm : grpc_compression_algorithm)
  : list Message -> list event -> pump_result :=
  let max_recv_message_length := max_recv_size_ filter in
  let limits :=
    GetFromCallContext ctx (message_size_service_config_parser_index_ filter) in
  let max_recv_message_length :=
    match limits with
    | Some limits =>
        if has_value (max_recv_size limits)
           && (negb (has_value max_recv_message_length)
               || (value_or (max_recv_size limits) 0
                   <? value_or max_recv_message_length 0)%N)
        then Some (value_or (max_recv_size limits) 0%N)
        else max_recv_message_length
    | None => max_recv_message_length
    end in
  PipeMapper_TakeAndRun
    (fun message =>
       DecompressMessage filter message algorithm max_recv_message_length).

(** [CompressionFilter::CompressLoop::TakeAndRun]: the metadata as the call
    leaves it, and the loop it returns. *)
Definition CompressLoop_TakeAndRun (filter : CompressionFilter)
  (outgoing_metadata : grpc_metadata_batch)
  : grpc_metadata_batch * (list Message -> list event -> pump_result) :=
  let (requested, outgoing_metadata) :=
    Take_GrpcInternalEncodingRequest outgoing_metadata in
  let algorithm := value_or requested (default_compression_algorithm_ filter) in
  let outgoing_metadata :=
    Set_GrpcAcceptEncodingMetadata outgoing_metadata
      (enabled_compression_algorithms_ filter) in
  let outgoing_metadata :=
    if negb (algorithm =? GRPC_COMPRESS_NONE)
    then Set_GrpcEncodingMetadata outgoing_metadata algorithm
    else outgoing_metadata in
  (outgoing_metadata,
   PipeMapper_TakeAndRun
     (fun m => h <- CompressMessage filter m algorithm ;; ret (StatusOr_ok h))).

End Filter.

(** ** Reading a run *)

Definition is_log (e : event) : bool :=
  match e with EvLog _ _ _ => true | _ => false end.

(** The limit [max] is set and the payload of [m] is longer. *)
Definition exceeds (max : option N) (m : Message) : bool :=
  match max with
  | Some limit => (limit <? Length (payload m))%N
  | None => false
  end.

(** The run returned an error of the given code. *)
Definition fails_with {A : Type} (c : StatusCode) (o : outcome (StatusOr A))
  : Prop :=
  exists status s, o = Done (StatusOr_error status) s /\ code status = c.

(** The minimum of the limits that are present. *)
Definition min_present (a b : option N) : option N :=
  match a, b with
  | Some x, Some y => Some (N.min x y)
  | Some x, None => Some x
  | None, Some y => Some y
  | None, None => None
  end.

(** The per-call limit of the service config, when the call has one. *)
Definition per_call_max_recv_size (filter : CompressionFilter)
  (ctx : grpc_call_context) : option N :=
  match GetFromCallContext ctx
          (message_size_service_config_parser_index_ filter) with
  | Some limits => max_recv_size limits
  | None => None
  end.

(** [m'] is what [CompressMessage] with [algorithm] makes of [m]. *)
Definition compressed_by {env : Collaborators} (filter : CompressionFilter)
  (algorithm : grpc_compression_algorithm) (m m' : Message) : Prop :=
  exists events events',
    CompressMessage filter tt algorithm (mkState m events)
    = Done tt (mkState m' events').

(** The compress operation as section 4.2 of the design document words it,
    on a message: unchanged if the algorithm is none, compression is disabled
    or the message carries the do-not-compress or the internally-compressed
    flag; otherwise the compression routine runs, and if it reports a
    reduction its output becomes the payload and the internally-compressed
    flag is set, and if not the message is left untouched. *)
Definition compress_spec {env : Collaborators} (filter : CompressionFilter)
  (algorithm : grpc_compression_algorithm) (m : Message) : Message :=
  if (algorithm =? GRPC_COMPRESS_NONE) || negb (enable_compression_ filter)
     || has_flag (flags m) GRPC_WRITE_NO_COMPRESS
     || has_flag (flags m) GRPC_WRITE_INTERNAL_COMPRESS
  then m
  else if fst (grpc_msg_compress algorithm (payload m)) =? 0 then m
  else mkMessage (snd (grpc_msg_compress algorithm (payload m)))
         (Z.lor (flags m) GRPC_WRITE_INTERNAL_COMPRESS).

(** The calls of the compression routine that go with it: one on the payload
    of a message the operation does not return at once, none otherwise. *)
Definition compress_spec_calls (filter : CompressionFilter)
  (algorithm : grpc_compression_algorithm) (m : Message) : list event :=
  if (algorithm =? GRPC_COMPRESS_NONE) || negb (enable_compression_ filter)
     || has_flag (flags m) GRPC_WRITE_NO_COMPRESS
     || has_flag (flags m) GRPC_WRITE_INTERNAL_COMPRESS
  then []
  else [EvCompress algorithm (payload m)].

(** The transform [CompressLoop::TakeAndRun] hands to the pipe mapper. *)
Definition compress_with {env : Collaborators} (filter : CompressionFilter)
  (algorithm : grpc_compression_algorithm)
  : MessageHandle -> M (StatusOr MessageHandle) :=
  fun m => h <- CompressMessage filter m algorithm ;; ret (StatusOr_ok h).

(** ** An instance of the collaborators

    For running the filter on concrete inputs: the names the compression
    library gives its three algorithms, and a run-length coding of constant
    payloads in place of zlib. *)
Definition fixture_algorithm_name (algorithm : grpc_compression_algorithm)
  : option string :=
  if algorithm =? GRPC_COMPRESS_NONE then Some "identity"
  else if algorithm =? GRPC_COMPRESS_DEFLATE then Some "deflate"
  else if algorithm =? GRPC_COMPRESS_GZIP then Some "gzip"
  else None.

Definition fixture_compress (algorithm : grpc_compression_algorithm)
  (input : SliceBuffer) : Z * SliceBuffer :=
  match input with
  | b :: rest =>
      if ((algorithm =? GRPC_COMPRESS_DEFLATE)
          || (algorithm =? GRPC_COMPRESS_GZIP))
         && (2 <=? List.length rest)%nat
         && forallb (Byte.eqb b) rest
      then
        match Byte.of_N (Length input) with
        | Some n => (1, [n; b])
        | None => (0, input)
        end
      else (0, input)
  | [] => (0, input)
  end.

Definition fixture_decompress (algorithm : grpc_compression_algorithm)
  (input : SliceBuffer) : Z * SliceBuffer :=
  match input with
  | [n; b] =>
      if (algorithm =? GRPC_COMPRESS_DEFLATE)
         || (algorithm =? GRPC_COMPRESS_GZIP)
      then (1, repeat b (N.to_nat (Byte.to_N n)))
      else (0, [])
  | _ => (0, [])
  end.

Definition fixture (trace : bool) : Collaborators :=
  mkCollaborators trace fixture_algorithm_name
    (fun algorithm => value_or (fixture_algorithm_name algorithm) "")
    fixture_compress fixture_decompress 0%N.

Definition fixture_filter : CompressionFilter :=
  mkCompressionFilter None 0%N GRPC_COMPRESS_NONE (mkAlgorithmSet 7) true true.

Definition aaaa : SliceBuffer := [Byte.x61; Byte.x61; Byte.x61; Byte.x61].
Definition abcd : SliceBuffer := [Byte.x61; Byte.x62; Byte.x63; Byte.x64].

(** ** The call promises

    [ClientCompressionFilter::MakeCallPromise] and
    [ServerCompressionFilter::MakeCallPromise] set up the legs of a call and
    hand them to [TryConcurrently], which runs them beside the rest of the
    filter chain.  The setup and the bodies of the legs are sequential code
    and are embedded here; the scheduling of [TryConcurrently] ([try_concurrently.h])
    is not. *)

(** What a leg that waits for metadata turns into once the wait is over:
    [ImmediateOkStatus()], or a loop over the message pipe. *)
Inductive leg : Type :=
| ImmediateOkStatus
| Loop (run : list Message -> list event -> pump_result).

(** The client call: the initial metadata as [next_promise_factory] receives
    it inside [call_args], the leg given to [NecessaryPull] as a function of
    what the wait for the server initial metadata yields (a null pointer when
    none arrives), and the loop given to [Push]. *)
Record client_call : Type := mkClientCall {
  client_initial_metadata : grpc_metadata_batch;
  client_pull : option grpc_metadata_batch -> leg;
  client_push : list Message -> list event -> pump_result
}.

(** The server call: the loop given to [Pull], and the leg given to [Push] as
    a function of what the wait on [read_latch] yields.  The leg dereferences
    the pointer without a test, so it is defined on metadata only; it gives
    what it sets on [write_latch] and the loop it returns. *)
Record server_call : Type := mkServerCall {
  server_pull : list Message -> list event -> pump_result;
  server_push :
    option grpc_metadata_batch ->
    option (grpc_metadata_batch
            * (list Message -> list event -> pump_result))
}.

Section CallPromises.
Context {env : Collaborators}.

(** [ClientCompressionFilter::MakeCallPromise]. *)
Definition ClientCompressionFilter_MakeCallPromise
  (filter : CompressionFilter) (ctx : grpc_call_context)
  (client_initial_metadata : grpc_metadata_batch) : client_call :=
  let (client_initial_metadata, compress_loop) :=
    CompressLoop_TakeAndRun filter client_initial_metadata in
  mkClientCall client_initial_metadata
    (fun server_initial_metadata =>
       match server_initial_metadata with
       | None => ImmediateOkStatus
       | Some server_initial_metadata =>
           Loop (DecompressLoop_TakeAndRun filter ctx
                   (value_or (GrpcEncodingMetadata server_initial_metadata)
                      GRPC_COMPRESS_NONE))
       end)
    compress_loop.

(** [ServerCompressionFilter::MakeCallPromise]. *)
Definition ServerCompressionFilter_MakeCallPromise
  (filter : CompressionFilter) (ctx : grpc_call_context)
  (client_initial_metadata : grpc_metadata_batch) : server_call :=
  let decompress_loop :=
    DecompressLoop_TakeAndRun filter ctx
      (value_or (GrpcEncodingMetadata client_initial_metadata)
         GRPC_COMPRESS_NONE) in
  mkServerCall decompress_loop
    (fun md =>
       match md with
       | None => None
       | Some md =>
           let (md, loop) := CompressLoop_TakeAndRun filter md in
           Some (md, loop)
       end).

End CallPromises.

(** ** More ways to read a run *)

(** The same collaborators with the trace flag set to [b]. *)
Definition with_trace (b : bool) (env : Collaborators) : Collaborators :=
  mkCollaborators b
    (@grpc_compression_algorithm_name env)
    (@CompressionAlgorithmAsString env)
    (@grpc_msg_compress env)
    (@grpc_msg_decompress env)
    (@MessageSizeParser_ParserIndex env).

(** The calls into the byte-level routines among the events. *)
Definition calls_of (events : list event) : list event :=
  filter (fun e => negb (is_log e)) events.

(** A flag word that fits [uint32_t]. *)
Definition is_uint32 (fl : Z) : Prop := 0 <= fl < 2 ^ 32.

(** The limit the decompress loop of a call works with. *)
Definition effective_max_recv_size (filter : CompressionFilter)
  (ctx : grpc_call_context) : option N :=
  min_present (max_recv_size_ filter) (per_call_max_recv_size filter ctx).

(** [DecompressMessage] returns [m] decompressed, or as it is: the test on
    the wire size passes, and the routine, where it is called, succeeds. *)
Definition decompress_succeeds {env : Collaborators}
  (filter : CompressionFilter) (algorithm : grpc_compression_algorithm)
  (max : option N) (m : Message) : bool :=
  negb (exceeds max m)
  && (negb (enable_decompression_ filter)
      || negb (has_flag (flags m) GRPC_WRITE_INTERNAL_COMPRESS)
      || negb (fst (grpc_msg_decompress algorithm (payload m)) =? 0)).

(** [m'] is what [DecompressMessage] returns for [m]. *)
Definition decompressed_by {env : Collaborators} (filter : CompressionFilter)
  (algorithm : grpc_compression_algorithm) (max : option N)
  (m m' : Message) : Prop :=
  exists events events',
    DecompressMessage filter tt algorithm max (mkState m events)
    = Done (StatusOr_ok tt) (mkState m' events').

(** * The xDS stateful session filter

    A shallow embedding of [src/core/ext/xds/xds_http_stateful_session_filter.cc],
    the translation of the xDS configuration of the stateful session filter
    into the JSON of the service config.

    - Protobuf messages are records with the fields the upb accessors read;
      a message field that is not set is [None], a string field that is not
      set is the empty string.
    - What the functions do to the [ValidationErrors] object is kept as the
      list of calls made on it, in order: a [ScopedField] that is constructed,
      one that is destroyed, [AddError], and the calls of the helpers that
      receive the object.  A [ScopedField] lives to the end of its block, so
      a scope is a bracket around the rest of the block.
    - The parsers of upb, [ExtractXdsExtension], [ParseDuration],
      [Duration::ToJsonString] and [Json::Dump] are collaborators.  The two
      helpers that receive the errors object give, beside their result, the
      errors they add to it, each with the fields the helper had open around
      it; an extension that [ExtractXdsExtension] returns keeps its
      [validation_fields] open on the errors object until it is
      destroyed. *)
Module Xds.

Record Cookie : Type := mkCookie {
  Cookie_name : string;
  Cookie_ttl : option (Z * Z);
  Cookie_path : string
}.

Record CookieBasedSessionState : Type := mkCookieState {
  CookieBasedSessionState_cookie : option Cookie
}.

Record StatefulSession (Any : Type) : Type := mkStatefulSession {
  (* [session_state], and inside it [typed_config] *)
  StatefulSession_session_state : option (option Any)
}.
Arguments mkStatefulSession {Any} _.
Arguments StatefulSession_session_state {Any} _.

Record StatefulSessionPerRoute (Any : Type) : Type := mkPerRoute {
  StatefulSessionPerRoute_disabled : bool;
  StatefulSessionPerRoute_stateful_session : option (StatefulSession Any)
}.
Arguments mkPerRoute {Any} _ _.
Arguments StatefulSessionPerRoute_disabled {Any} _.
Arguments StatefulSessionPerRoute_stateful_session {Any} _.

(** [Json], as far as the filter builds it: strings and objects.  An object
    is a map from keys to values; assignment to a key replaces what the key
    held. *)
#[warnings="-register-all"]
Inductive Json : Type :=
| Json_string (s : string)
| Json_object (members : list (string * Json)).

Definition Object : Type := list (string * Json).

Fixpoint Object_get (key : string) (o : Object) : option Json :=
  match o with
  | [] => None
  | (k, v) :: rest => if String.eqb k key then Some v else Object_get key rest
  end.

Fixpoint Object_erase (key : string) (o : Object) : Object :=
  match o with
  | [] => []
  | (k, v) :: rest =>
      if String.eqb k key then Object_erase key rest
      else (k, v) :: Object_erase key rest
  end.

(** [o[key] = v]. *)
Definition Object_set (key : string) (v : Json) (o : Object) : Object :=
  (key, v) :: Object_erase key o.

(** Modelled from the spec: [XdsExtension] is declared in
    [xds_common_types.h], outside the files at hand, and the spec leaves the
    translation to its collaborators.  The functions here read [type] and
    [value], serialized or JSON; [validation_fields] stands for the
    [ScopedField]s the struct holds on the errors object for as long as it
    lives, by the names of the fields, outermost first. *)
Record XdsExtension : Type := mkExtension {
  type : string;
  value : string + Json;
  validation_fields : list string
}.

(** An error on the errors object: the fields open around it, outermost
    first, and the message. *)
Definition field_error : Type := (list string * string)%type.

(** [XdsHttpFilterImpl::FilterConfig]. *)
Record FilterConfig : Type := mkFilterConfig {
  config_proto_type_name : string;
  config : Json
}.

(** [XdsHttpFilterImpl::ServiceConfigJsonEntry]. *)
Record ServiceConfigJsonEntry : Type := mkEntry {
  service_config_field_name : string;
  element : string
}.

(** The calls made on the [ValidationErrors] object.  A call of a helper
    carries the errors the helper added during the call, each with the fields
    the helper itself had open around it. *)
Inductive call (Any : Type) : Type :=
| PushField (name : string)
| PopField
| AddError (error : string)
| Call_ExtractXdsExtension (typed_config : option Any)
    (added : list field_error)
| Destroy_XdsExtension
| Call_ParseDuration (duration : Z * Z) (added : list field_error).
Arguments PushField {Any} name.
Arguments PopField {Any}.
Arguments AddError {Any} error.
Arguments Call_ExtractXdsExtension {Any} typed_config added.
Arguments Destroy_XdsExtension {Any}.
Arguments Call_ParseDuration {Any} duration added.

(** The collaborators of the translation. *)
Class Decoder : Type := mkDecoder {
  Any : Type;
  Duration : Type;
  StatefulSession_parse : string -> option (StatefulSession Any);
  StatefulSessionPerRoute_parse : string -> option (StatefulSessionPerRoute Any);
  CookieBasedSessionState_parse : string -> option CookieBasedSessionState;
  ExtractXdsExtension : option Any -> option XdsExtension * list field_error;
  ParseDuration : Z * Z -> Duration * list field_error;
  ToJsonString : Duration -> string;
  Dump : Json -> string
}.

Section Translation.
Context {decoder : Decoder}.

(** A computation that calls the errors object: its value and its calls. *)
Definition V (A : Type) : Type := A * list (call Any).

Definition vret {A : Type} (a : A) : V A := (a, []).

Definition vbind {A B : Type} (c : V A) (k : A -> V B) : V B :=
  let (a, calls) := c in
  let (b, calls') := k a in
  (b, calls ++ calls').

Definition vcall (c : call Any) : V unit := (tt, [c]).

(** [ValidationErrors::ScopedField field(errors, name); body]. *)
Definition scoped {A : Type} (name : string) (body : V A) : V A :=
  vbind (vcall (PushField name))
    (fun _ => vbind body (fun a => vbind (vcall PopField) (fun _ => vret a))).

(** [auto extension = ExtractXdsExtension(context, typed_config, errors);]
    and the rest of the block.  The call adds its errors; an extension comes
    back with its [validation_fields] open, and is destroyed at the end of
    the block, which closes them, innermost first. *)
Definition with_extension {A : Type} (typed_config : option Any)
  (none : V A) (body : XdsExtension -> V A) : V A :=
  vbind
    (vcall
       (Call_ExtractXdsExtension typed_config
          (snd (ExtractXdsExtension typed_config))))
    (fun _ =>
       match fst (ExtractXdsExtension typed_config) with
       | None => none
       | Some extension =>
           vbind (tt, map PushField (validation_fields extension))
             (fun _ =>
           vbind (body extension)
             (fun a =>
           vbind (vcall Destroy_XdsExtension)
             (fun _ =>
           vbind
             (tt,
              repeat PopField (List.length (validation_fields extension)))
             (fun _ => vret a))))
       end).

Definition ConfigProtoName : string :=
  "envoy.extensions.filters.http.stateful_session.v3.StatefulSession".

Definition OverrideConfigProtoName : string :=
  "envoy.extensions.filters.http.stateful_session.v3"
  ++ ".StatefulSessionPerRoute".

(** [ValidateStatefulSession]. *)
Definition ValidateStatefulSession (stateful_session : StatefulSession Any)
  : V Object :=
  scoped ".session_state"
    match StatefulSession_session_state stateful_session with
    | None => vbind (vcall (AddError "field not present")) (fun _ => vret [])
    | Some session_state =>
        scoped ".typed_config"
          (with_extension session_state (vret [])
             (fun extension =>
                if negb (String.eqb (type extension)
                           ("envoy.extensions.http.stateful_session.cookie.v3"
                            ++ ".CookieBasedSessionState"))
                then
                  vbind (vcall (AddError "unsupported session state type"))
                    (fun _ => vret [])
                else
                  match value extension with
                  | inr _ =>
                      vbind
                        (vcall
                           (AddError "could not parse session state config"))
                        (fun _ => vret [])
                  | inl serialized_session_state =>
                      match CookieBasedSessionState_parse
                              serialized_session_state with
                      | None =>
                          vbind
                            (vcall
                               (AddError
                                  "could not parse session state config"))
                            (fun _ => vret [])
                      | Some cookie_state =>
                          scoped ".cookie"
                            match CookieBasedSessionState_cookie
                                    cookie_state with
                            | None =>
                                vbind (vcall (AddError "field not present"))
                                  (fun _ => vret [])
                            | Some cookie =>
                                let cookie_config : Object := [] in
                                let cookie_name := Cookie_name cookie in
                                vbind
                                  (if String.eqb cookie_name ""
                                   then
                                     scoped ".name"
                                       (vcall (AddError "field not present"))
                                   else vret tt)
                                  (fun _ =>
                                let cookie_config :=
                                  Object_set "name" (Json_string cookie_name)
                                    cookie_config in
                                vbind
                                  (scoped ".ttl"
                                     match Cookie_ttl cookie with
                                     | Some duration =>
                                         vbind
                                           (vcall
                                              (Call_ParseDuration duration
                                                 (snd
                                                    (ParseDuration
                                                       duration))))
                                           (fun _ =>
                                              let ttl :=
                                                fst (ParseDuration duration)
                                              in
                                              vret
                                                (Object_set "ttl"
                                                   (Json_string
                                                      (ToJsonString ttl))
                                                   cookie_config))
                                     | None => vret cookie_config
                                     end)
                                  (fun cookie_config =>
                                let path := Cookie_path cookie in
                                let cookie_config :=
                                  if negb (String.eqb path "")
                                  then Object_set "path" (Json_string path)
                                         cookie_config
                                  else cookie_config in
                                vret cookie_config))
                            end
                      end
                  end))
    end.

(** [XdsHttpStatefulSessionFilter::GenerateFilterConfig]. *)
Definition GenerateFilterConfig (extension : XdsExtension)
  : V (option FilterConfig) :=
  match value extension with
  | inr _ =>
      vbind
        (vcall (AddError "could not parse stateful session filter config"))
        (fun _ => vret None)
  | inl serialized_filter_config =>
      match StatefulSession_parse serialized_filter_config with
      | None =>
          vbind
            (vcall
               (AddError "could not parse stateful session filter config"))
            (fun _ => vret None)
      | Some stateful_session =>
          vbind (ValidateStatefulSession stateful_session)
            (fun o =>
               vret (Some (mkFilterConfig ConfigProtoName (Json_object o))))
      end
  end.

(** [XdsHttpStatefulSessionFilter::GenerateFilterConfigOverride]. *)
Definition GenerateFilterConfigOverride (extension : XdsExtension)
  : V (option FilterConfig) :=
  match value extension with
  | inr _ =>
      vbind
        (vcall
           (AddError
              "could not parse stateful session filter override config"))
        (fun _ => vret None)
  | inl serialized_filter_config =>
      match StatefulSessionPerRoute_parse serialized_filter_config with
      | None =>
          vbind
            (vcall
               (AddError
                  "could not parse stateful session filter override config"))
            (fun _ => vret None)
      | Some stateful_session_per_route =>
          let config : Object := [] in
          vbind
            (if negb (StatefulSessionPerRoute_disabled
                        stateful_session_per_route)
             then
               scoped ".stateful_session"
                 match StatefulSessionPerRoute_stateful_session
                         stateful_session_per_route with
                 | None =>
                     vbind (vcall (AddError "field not present"))
                       (fun _ => vret config)
                 | Some stateful_session =>
                     ValidateStatefulSession stateful_session
                 end
             else vret config)
            (fun config =>
               vret
                 (Some
                    (mkFilterConfig OverrideConfigProtoName
                       (Json_object config))))
      end
  end.

(** [XdsHttpStatefulSessionFilter::GenerateServiceConfig]. *)
Definition GenerateServiceConfig (hcm_filter_config : FilterConfig)
  (filter_config_override : option FilterConfig)
  : StatusOr ServiceConfigJsonEntry :=
  let config :=
    match filter_config_override with
    | Some filter_config_override => config filter_config_override
    | None => config hcm_filter_config
    end in
  StatusOr_ok (mkEntry "stateful_session" (Dump config)).

End Translation.

(** The scopes a list of calls leaves open, innermost first, when it starts
    inside [open]; nothing when it closes a scope that is not open. *)
Fixpoint scopes_after {Any : Type} (calls : list (call Any))
  (open : list string) : option (list string) :=
  match calls with
  | [] => Some open
  | PushField name :: rest => scopes_after rest (name :: open)
  | PopField :: rest =>
      match open with
      | [] => None
      | _ :: outer => scopes_after rest outer
      end
  | _ :: rest => scopes_after rest open
  end.

(** The errors of a helper, placed under the fields open at its call,
    outermost first. *)
Definition placed (fields : list string) (added : list field_error)
  : list field_error :=
  map (fun e => (fields ++ fst e, snd e)) added.

(** The errors the calls leave on the errors object, in order, each with the
    fields open around it, outermost first: the errors of [AddError] and the
    errors the helpers added during their calls.  [open] holds the fields
    open at the start, innermost first. *)
Fixpoint errors_added {Any : Type} (calls : list (call Any))
  (open : list string) : list field_error :=
  match calls with
  | [] => []
  | PushField name :: rest => errors_added rest (name :: open)
  | PopField :: rest => errors_added rest (tl open)
  | AddError error :: rest => (rev open, error) :: errors_added rest open
  | Call_ExtractXdsExtension _ added :: rest =>
      placed (rev open) added ++ errors_added rest open
  | Call_ParseDuration _ added :: rest =>
      placed (rev open) added ++ errors_added rest open
  | Destroy_XdsExtension :: rest => errors_added rest open
  end.

(** A rendering of [Json] for the instance. *)
Fixpoint fixture_dump (j : Json) : string :=
  match j with
  | Json_string s => ("'" ++ s ++ "'")%string
  | Json_object members =>
      ("{"
       ++ (fix dump_members (l : list (string * Json)) : string :=
             match l with
             | [] => ""
             | (k, v) :: rest =>
                 k ++ ":" ++ fixture_dump v ++ ";" ++ dump_members rest
             end) members
       ++ "}")%string
  end.

(** An instance of the collaborators: the serialized forms are read off
    fixed strings. *)
Definition fixture_decoder : Decoder :=
  mkDecoder string Z
    (fun bytes =>
       if String.eqb bytes "session" then
         Some (mkStatefulSession (Some (Some "cookie")))
       else if String.eqb bytes "bad_session" then
         Some (mkStatefulSession (Some (Some "bad_cookie")))
       else if String.eqb bytes "untyped" then
         Some (mkStatefulSession (Some None))
       else if String.eqb bytes "empty" then Some (mkStatefulSession None)
       else None)
    (fun bytes =>
       if String.eqb bytes "disabled" then
         Some (mkPerRoute true (Some (mkStatefulSession None)))
       else if String.eqb bytes "unset" then Some (mkPerRoute false None)
       else None)
    (fun bytes =>
       if String.eqb bytes "named" then
         Some (mkCookieState (Some (mkCookie "sid" (Some (3, 0)) "/api")))
       else if String.eqb bytes "unnamed" then
         Some (mkCookieState (Some (mkCookie "" (Some (-1, 0)) "")))
       else None)
    (fun any =>
       match any with
       | Some "cookie" =>
           (Some (mkExtension
                    ("envoy.extensions.http.stateful_session.cookie.v3"
                     ++ ".CookieBasedSessionState") (inl "named")
                    [".value[cookie]"]),
            [])
       | Some "bad_cookie" =>
           (Some (mkExtension
                    ("envoy.extensions.http.stateful_session.cookie.v3"
                     ++ ".CookieBasedSessionState") (inl "unnamed")
                    [".value[bad_cookie]"]),
            [])
       | Some other =>
           (Some (mkExtension other (inl "")
                    [(".value[" ++ other ++ "]")%string]),
            [])
       | None => (None, [([], "field not present")])
       end)
    (fun duration =>
       (fst duration,
        if fst duration <? 0
        then [([".seconds"], "value must be in the range [0, 315576000000]")]
        else []))
    (fun seconds => (dec (Z.to_N seconds) ++ ".000000000s")%string)
    fixture_dump.

End Xds.

(** ** Tactics for running the monad *)

Ltac run_monad :=
  unfold call_grpc_msg_compress, call_grpc_msg_decompress, when, gpr_log,
    emit, bind, ret, get_payload, get_flags, swap_payload, set_flags,
    GPR_ASSERT; cbn [st_message st_events payload flags].

Ltac step :=
  cbn [st_message st_events payload flags has_value value_or andb].

Ltac only_logs log :=
  exists log; split; [reflexivity |];
  rewrite ?app_nil_r, <- ?app_assoc; cbn [app].

Ltac run_calls :=
  unfold Xds.scoped, Xds.with_extension, Xds.vbind, Xds.vcall, Xds.vret;
  cbn [fst snd app].

(** * Properties *)

(** ** Flag words *)

Lemma has_flag_pow2 (fl k : Z) :
  0 <= k -> has_flag fl (2 ^ k) = Z.testbit fl k.
Proof.
  intros Hk. unfold has_flag.
  destruct (Z.testbit fl k) eqn:Hb.
  - destruct (Z.eqb_spec (Z.land fl (2 ^ k)) 0) as [E | _]; [| reflexivity].
    assert (Hbit : Z.testbit (Z.land fl (2 ^ k)) k = true).
    { rewrite Z.land_spec, Hb, Z.pow2_bits_true by assumption. reflexivity. }
    rewrite E, Z.bits_0 in Hbit. discriminate.
  - destruct (Z.eqb_spec (Z.land fl (2 ^ k)) 0) as [_ | NE]; [reflexivity |].
    exfalso. apply NE. apply Z.bits_inj'. intros i Hi.
    rewrite Z.land_spec, Z.bits_0, Z.pow2_bits_eqb by assumption.
    destruct (Z.eqb_spec k i) as [-> | _].
    + rewrite Hb. reflexivity.
    + apply andb_false_r.
Qed.

Lemma has_flag_internal_compress (fl : Z) :
  has_flag fl GRPC_WRITE_INTERNAL_COMPRESS = Z.testbit fl 31.
Proof. apply (has_flag_pow2 fl 31). lia. Qed.

Lemma has_flag_was_compressed (fl : Z) :
  has_flag fl GRPC_WRITE_INTERNAL_TEST_ONLY_WAS_COMPRESSED = Z.testbit fl 30.
Proof. apply (has_flag_pow2 fl 30). lia. Qed.

(** [flags & (a | b)] is non-zero exactly when one of the two tests is. *)
Lemma has_flag_lor (fl a b : Z) :
  has_flag fl (Z.lor a b) = has_flag fl a || has_flag fl b.
Proof.
  unfold has_flag. rewrite Z.land_lor_distr_r.
  destruct (Z.eqb_spec (Z.lor (Z.land fl a) (Z.land fl b)) 0) as [E | NE].
  - apply Z.lor_eq_0_iff in E. destruct E as [-> ->]. reflexivity.
  - destruct (Z.eqb_spec (Z.land fl a) 0) as [Ea | _]; [| reflexivity].
    destruct (Z.eqb_spec (Z.land fl b) 0) as [Eb | _]; [| reflexivity].
    exfalso. apply NE. rewrite Ea, Eb. reflexivity.
Qed.

Lemma uint32_not_internal_compress :
  uint32_not GRPC_WRITE_INTERNAL_COMPRESS = Z.ones 31.
Proof. reflexivity. Qed.

(** The flag word [DecompressMessage] leaves on success. *)
Lemma decompressed_flags_bits (fl i : Z) :
  0 <= i ->
  Z.testbit
    (Z.lor (Z.land fl (uint32_not GRPC_WRITE_INTERNAL_COMPRESS))
       GRPC_WRITE_INTERNAL_TEST_ONLY_WAS_COMPRESSED) i
  = (Z.testbit fl i && (i <? 31)) || (i =? 30).
Proof.
  intros Hi. rewrite Z.lor_spec, Z.land_spec, uint32_not_internal_compress.
  change GRPC_WRITE_INTERNAL_TEST_ONLY_WAS_COMPRESSED with (2 ^ 30).
  rewrite Z.pow2_bits_eqb by lia. rewrite Z.testbit_ones_nonneg by lia.
  rewrite (Z.eqb_sym 30 i). reflexivity.
Qed.

(** The flag word [CompressMessage] leaves when it compressed. *)
Lemma compressed_flags_bits (fl i : Z) :
  0 <= i ->
  Z.testbit (Z.lor fl GRPC_WRITE_INTERNAL_COMPRESS) i
  = Z.testbit fl i || (i =? 31).
Proof.
  intros Hi. rewrite Z.lor_spec.
  change GRPC_WRITE_INTERNAL_COMPRESS with (2 ^ 31).
  rewrite Z.pow2_bits_eqb by lia. rewrite (Z.eqb_sym 31 i). reflexivity.
Qed.

(** ** The three ways through [DecompressMessage] *)

Lemma DecompressMessage_too_large {env : Collaborators}
  (filter : CompressionFilter) (algorithm : grpc_compression_algorithm)
  (max : option N) (s : state) :
  exceeds max (st_message s) = true ->
  exists log, forallb is_log log = true /\
    DecompressMessage filter tt algorithm max s
    = Done (StatusOr_error (ResourceExhaustedError
              ("Received message larger than max ("
               ++ dec (Length (payload (st_message s))) ++ " vs. "
               ++ dec (value_or max 0%N) ++ ")")))
        (mkState (st_message s) (st_events s ++ log)).
Proof.
  intros Hex. destruct s as [m evs]. destruct max as [limit |];
    [| discriminate]. cbn [exceeds st_message] in Hex.
  unfold DecompressMessage. run_monad.
  destruct grpc_compression_trace; step; rewrite Hex.
  - eexists [_]. split; [| reflexivity]. reflexivity.
  - only_logs (@nil event). reflexivity.
Qed.

Lemma DecompressMessage_pass_through {env : Collaborators}
  (filter : CompressionFilter) (algorithm : grpc_compression_algorithm)
  (max : option N) (s : state) :
  exceeds max (st_message s) = false ->
  enable_decompression_ filter = false
  \/ has_flag (flags (st_message s)) GRPC_WRITE_INTERNAL_COMPRESS = false ->
  exists log, forallb is_log log = true /\
    DecompressMessage filter tt algorithm max s
    = Done (StatusOr_ok tt) (mkState (st_message s) (st_events s ++ log)).
Proof.
  intros Hex Hpass. destruct s as [m evs]. cbn [st_message st_events] in *.
  assert (Hcheck : has_value max && (value_or max 0 <? Length (payload m))%N
                   = false).
  { destruct max; [exact Hex | reflexivity]. }
  assert (Hskip : negb (enable_decompression_ filter)
                  || (Z.land (flags m) GRPC_WRITE_INTERNAL_COMPRESS =? 0)
                  = true).
  { destruct Hpass as [-> | Hfl]; [reflexivity |].
    unfold has_flag in Hfl. apply negb_false_iff in Hfl. rewrite Hfl.
    apply orb_true_r. }
  unfold DecompressMessage. run_monad.
  destruct grpc_compression_trace; step; rewrite Hcheck; step; rewrite Hskip.
  - eexists [_]. split; [| reflexivity]. reflexivity.
  - only_logs (@nil event). reflexivity.
Qed.

Lemma DecompressMessage_decompresses {env : Collaborators}
  (filter : CompressionFilter) (algorithm : grpc_compression_algorithm)
  (max : option N) (s : state) (r : Z) (out : SliceBuffer) :
  exceeds max (st_message s) = false ->
  enable_decompression_ filter = true ->
  has_flag (flags (st_message s)) GRPC_WRITE_INTERNAL_COMPRESS = true ->
  grpc_msg_decompress algorithm (payload (st_message s)) = (r, out) ->
  exists log, forallb is_log log = true /\
    DecompressMessage filter tt algorithm max s
    = if r =? 0
      then Done (StatusOr_error (InternalError
                   ("Unexpected error decompressing data for algorithm "
                    ++ CompressionAlgorithmAsString algorithm)))
             (mkState (st_message s)
                (st_events s ++ log
                 ++ [EvDecompress algorithm (payload (st_message s))]))
      else Done (StatusOr_ok tt)
             (mkState
                (mkMessage out
                   (Z.lor (Z.land (flags (st_message s))
                             (uint32_not GRPC_WRITE_INTERNAL_COMPRESS))
                      GRPC_WRITE_INTERNAL_TEST_ONLY_WAS_COMPRESSED))
                (st_events s ++ log
                 ++ [EvDecompress algorithm (payload (st_message s))])).
Proof.
  intros Hex Hen Hfl Hcall. destruct s as [m evs].
  cbn [st_message st_events] in *.
  assert (Hcheck : has_value max && (value_or max 0 <? Length (payload m))%N
                   = false).
  { destruct max; [exact Hex | reflexivity]. }
  assert (Hskip : negb (enable_decompression_ filter)
                  || (Z.land (flags m) GRPC_WRITE_INTERNAL_COMPRESS =? 0)
                  = false).
  { rewrite Hen. unfold has_flag in Hfl. apply negb_true_iff in Hfl.
    rewrite Hfl. reflexivity. }
  unfold DecompressMessage. run_monad.
  destruct grpc_compression_trace; step; rewrite Hcheck; step; rewrite Hskip;
    step; rewrite Hcall; step.
  - eexists [_].
    split; [| rewrite <- !app_assoc; cbn [app]; destruct (r =? 0); reflexivity].
    reflexivity.
  - only_logs (@nil event). destruct (r =? 0); reflexivity.
Qed.

(** ** The ways through [CompressMessage] *)

Lemma CompressMessage_returns_unchanged {env : Collaborators}
  (filter : CompressionFilter) (algorithm : grpc_compression_algorithm)
  (s : state) :
  (algorithm =? GRPC_COMPRESS_NONE) || negb (enable_compression_ filter)
  || has_flag (flags (st_message s))
       (Z.lor GRPC_WRITE_NO_COMPRESS GRPC_WRITE_INTERNAL_COMPRESS) = true ->
  exists log, forallb is_log log = true /\
    CompressMessage filter tt algorithm s
    = Done tt (mkState (st_message s) (st_events s ++ log)).
Proof.
  intros Hguard. destruct s as [m evs]. cbn [st_message st_events] in *.
  unfold has_flag in Hguard. unfold CompressMessage. run_monad.
  destruct grpc_compression_trace; step; rewrite Hguard.
  - eexists [_]. split; [| reflexivity]. reflexivity.
  - only_logs (@nil event). reflexivity.
Qed.

Lemma CompressMessage_compresses {env : Collaborators}
  (filter : CompressionFilter) (algorithm : grpc_compression_algorithm)
  (s : state) (r : Z) (tmp : SliceBuffer) :
  (algorithm =? GRPC_COMPRESS_NONE) || negb (enable_compression_ filter)
  || has_flag (flags (st_message s))
       (Z.lor GRPC_WRITE_NO_COMPRESS GRPC_WRITE_INTERNAL_COMPRESS) = false ->
  (grpc_compression_trace = true ->
   has_value (grpc_compression_algorithm_name algorithm) = true) ->
  grpc_msg_compress algorithm (payload (st_message s)) = (r, tmp) ->
  exists log1 log2,
    forallb is_log log1 = true /\ forallb is_log log2 = true /\
    CompressMessage filter tt algorithm s
    = Done tt
        (mkState
           (if r =? 0 then st_message s
            else mkMessage tmp
                   (Z.lor (flags (st_message s)) GRPC_WRITE_INTERNAL_COMPRESS))
           (st_events s ++ log1
            ++ EvCompress algorithm (payload (st_message s)) :: log2)).
Proof.
  intros Hguard Hname Hcall. destruct s as [m evs].
  cbn [st_message st_events] in *.
  unfold has_flag in Hguard. unfold CompressMessage. run_monad.
  destruct grpc_compression_trace; step; rewrite Hguard; step; rewrite Hcall;
    step.
  - rewrite (Hname eq_refl). destruct (r =? 0); cbn [negb]; step.
    + eexists [_], [_].
      split; [| split];
        [| | rewrite <- !app_assoc; destruct m; reflexivity]; reflexivity.
    + eexists [_], [_].
      split; [| split]; [| | rewrite <- !app_assoc; reflexivity]; reflexivity.
  - exists (@nil event), (@nil event). split; [reflexivity |].
    split; [reflexivity |]. cbn [app].
    destruct (r =? 0); cbn [negb]; step; [destruct m |]; reflexivity.
Qed.

Lemma CompressMessage_assertion_fails {env : Collaborators}
  (filter : CompressionFilter) (algorithm : grpc_compression_algorithm)
  (s : state) :
  (algorithm =? GRPC_COMPRESS_NONE) || negb (enable_compression_ filter)
  || has_flag (flags (st_message s))
       (Z.lor GRPC_WRITE_NO_COMPRESS GRPC_WRITE_INTERNAL_COMPRESS) = false ->
  grpc_compression_trace = true ->
  grpc_compression_algorithm_name algorithm = None ->
  exists log,
    forallb is_log log = true /\
    CompressMessage filter tt algorithm s
    = Aborted
        (mkState (st_message s)
           (st_events s ++ log
            ++ [EvCompress algorithm (payload (st_message s))])).
Proof.
  intros Hguard Htrace Hname. destruct s as [m evs].
  cbn [st_message st_events] in *.
  unfold has_flag in Hguard. unfold CompressMessage. run_monad.
  rewrite Htrace; step; rewrite Hguard; step.
  destruct (grpc_msg_compress algorithm (payload m)) as [r tmp]; step.
  rewrite Hname. eexists [_]. split; [| destruct (r =? 0); cbn [negb]; step;
    rewrite <- !app_assoc; destruct m; reflexivity]. reflexivity.
Qed.

(** ** [DecompressMessage] *)

(** C1.  A message that passes the size check is returned unchanged when
    decompression is disabled or the message does not carry the
    internally-compressed flag, with no call of the decompression routine.
    Otherwise the routine is called once on the payload: when it reports
    failure (result 0) the call returns an internal error whose text ends in
    the name of the algorithm; when it succeeds the payload becomes the
    decompressed bytes, the internally-compressed flag is cleared, the
    test-only was-compressed marker is set and the lower flags are kept. *)
Theorem DecompressMessage_after_size_check {env : Collaborators}
  (filter : CompressionFilter) (algorithm : grpc_compression_algorithm)
  (max : option N) (s : state) :
  exceeds max (st_message s) = false ->
  (enable_decompression_ filter = false
   \/ has_flag (flags (st_message s)) GRPC_WRITE_INTERNAL_COMPRESS = false ->
   exists log, forallb is_log log = true /\
     DecompressMessage filter tt algorithm max s
     = Done (StatusOr_ok tt) (mkState (st_message s) (st_events s ++ log)))
  /\
  (enable_decompression_ filter = true ->
   has_flag (flags (st_message s)) GRPC_WRITE_INTERNAL_COMPRESS = true ->
   forall r out,
     grpc_msg_decompress algorithm (payload (st_message s)) = (r, out) ->
     exists log, forallb is_log log = true /\
       let events' :=
         st_events s ++ log
         ++ [EvDecompress algorithm (payload (st_message s))] in
       (r = 0 ->
        DecompressMessage filter tt algorithm max s
        = Done (StatusOr_error (InternalError
                  ("Unexpected error decompressing data for algorithm "
                   ++ CompressionAlgorithmAsString algorithm)))
            (mkState (st_message s) events'))
       /\
       (r <> 0 ->
        exists fl',
          DecompressMessage filter tt algorithm max s
          = Done (StatusOr_ok tt) (mkState (mkMessage out fl') events')
          /\ has_flag fl' GRPC_WRITE_INTERNAL_COMPRESS = false
          /\ has_flag fl' GRPC_WRITE_INTERNAL_TEST_ONLY_WAS_COMPRESSED = true
          /\ forall i, 0 <= i < 30 ->
               Z.testbit fl' i = Z.testbit (flags (st_message s)) i)).
Proof.
  intros Hex. split.
  - intros Hpass. apply DecompressMessage_pass_through; assumption.
  - intros Hen Hfl r out Hcall.
    destruct (DecompressMessage_decompresses filter algorithm max s r out
                Hex Hen Hfl Hcall) as [log [Hlog Hrun]].
    exists log. split; [exact Hlog |]. cbv zeta. split.
    + intros ->. exact Hrun.
    + intros Hr. apply Z.eqb_neq in Hr. rewrite Hr in Hrun.
      eexists. split; [exact Hrun |].
      rewrite has_flag_internal_compress, has_flag_was_compressed.
      rewrite !decompressed_flags_bits by lia.
      change (31 <? 31) with false. change (31 =? 30) with false.
      change (30 =? 30) with true.
      split; [rewrite andb_false_r; reflexivity |].
      split; [apply orb_true_r |].
      intros i Hi. rewrite decompressed_flags_bits by lia.
      replace (i <? 31) with true by (symmetry; apply Z.ltb_lt; lia).
      replace (i =? 30) with false by (symmetry; apply Z.eqb_neq; lia).
      rewrite andb_true_r, orb_false_r. reflexivity.
Qed.

(** C2.  [DecompressMessage] returns a resource-exhausted error exactly when
    the limit is set and the payload, as it arrived, is longer than the
    limit.  The error text carries both sizes; the message is left as it
    was, and only trace lines are added to the trace (the decompression
    routine is not called), whatever the flags and the algorithm. *)
Theorem DecompressMessage_size_check {env : Collaborators}
  (filter : CompressionFilter) (algorithm : grpc_compression_algorithm)
  (max : option N) (s : state) :
  (fails_with kResourceExhausted (DecompressMessage filter tt algorithm max s)
   <-> exceeds max (st_message s) = true)
  /\
  (forall limit,
     max = Some limit -> (limit < Length (payload (st_message s)))%N ->
     exists log, forallb is_log log = true /\
       DecompressMessage filter tt algorithm max s
       = Done (StatusOr_error (ResourceExhaustedError
                 ("Received message larger than max ("
                  ++ dec (Length (payload (st_message s))) ++ " vs. "
                  ++ dec limit ++ ")")))
           (mkState (st_message s) (st_events s ++ log))).
Proof.
  split; [split |].
  - intros [status [s' [Hrun Hcode]]].
    destruct (exceeds max (st_message s)) eqn:Hex; [reflexivity | exfalso].
    destruct (enable_decompression_ filter) eqn:Hen.
    + destruct (has_flag (flags (st_message s)) GRPC_WRITE_INTERNAL_COMPRESS)
        eqn:Hfl.
      * destruct (grpc_msg_decompress algorithm (payload (st_message s)))
          as [r out] eqn:Hcall.
        destruct (DecompressMessage_decompresses filter algorithm max s r out
                    Hex Hen Hfl Hcall) as [log [_ Hrun']].
        rewrite Hrun in Hrun'. destruct (r =? 0).
        -- injection Hrun' as Hstatus _. subst status. discriminate Hcode.
        -- discriminate Hrun'.
      * destruct (DecompressMessage_pass_through filter algorithm max s Hex
                    (or_intror Hfl)) as [log [_ Hrun']].
        rewrite Hrun in Hrun'. discriminate Hrun'.
    + destruct (DecompressMessage_pass_through filter algorithm max s Hex
                  (or_introl Hen)) as [log [_ Hrun']].
      rewrite Hrun in Hrun'. discriminate Hrun'.
  - intros Hex.
    destruct (DecompressMessage_too_large filter algorithm max s Hex)
      as [log [_ Hrun]].
    eexists _, _. split; [exact Hrun | reflexivity].
  - intros limit -> Hlt.
    apply (DecompressMessage_too_large filter algorithm (Some limit) s).
    apply N.ltb_lt. exact Hlt.
Qed.

(** C9.  [DecompressMessage] always returns, and whenever it returns an error
    (resource-exhausted or internal, there is no other) the message behind
    the handle is the input message: payload and flags as they were, none of
    the effects of a successful decompression applied. *)
Theorem DecompressMessage_atomic_on_error {env : Collaborators}
  (filter : CompressionFilter) (algorithm : grpc_compression_algorithm)
  (max : option N) (s : state) :
  exists result s',
    DecompressMessage filter tt algorithm max s = Done result s'
    /\ forall status,
         result = StatusOr_error status ->
         st_message s' = st_message s
         /\ (code status = kResourceExhausted \/ code status = kInternal).
Proof.
  destruct (exceeds max (st_message s)) eqn:Hex.
  - destruct (DecompressMessage_too_large filter algorithm max s Hex)
      as [log [_ Hrun]].
    eexists _, _. split; [exact Hrun |].
    intros status Hstatus. injection Hstatus as <-.
    split; [reflexivity | left; reflexivity].
  - destruct (enable_decompression_ filter) eqn:Hen;
      [destruct (has_flag (flags (st_message s)) GRPC_WRITE_INTERNAL_COMPRESS)
         eqn:Hfl |].
    + destruct (grpc_msg_decompress algorithm (payload (st_message s)))
        as [r out] eqn:Hcall.
      destruct (DecompressMessage_decompresses filter algorithm max s r out
                  Hex Hen Hfl Hcall) as [log [_ Hrun]].
      destruct (r =? 0); eexists _, _; (split; [exact Hrun |]);
        intros status Hstatus; [| discriminate Hstatus].
      injection Hstatus as <-. split; [reflexivity | right; reflexivity].
    + destruct (DecompressMessage_pass_through filter algorithm max s Hex
                  (or_intror Hfl)) as [log [_ Hrun]].
      eexists _, _. split; [exact Hrun |]. intros status Hstatus.
      discriminate Hstatus.
    + destruct (DecompressMessage_pass_through filter algorithm max s Hex
                  (or_introl Hen)) as [log [_ Hrun]].
      eexists _, _. split; [exact Hrun |]. intros status Hstatus.
      discriminate Hstatus.
Qed.

(** A compressed message within the limit, decompressed by the instance. *)
Lemma DecompressMessage_after_size_check_witness :
  exists fl' log,
    @DecompressMessage (fixture false) fixture_filter tt GRPC_COMPRESS_GZIP
      (Some 10%N)
      (mkState (mkMessage [Byte.x04; Byte.x61] GRPC_WRITE_INTERNAL_COMPRESS) [])
    = Done (StatusOr_ok tt)
        (mkState (mkMessage aaaa fl')
           ([] ++ log
            ++ [EvDecompress GRPC_COMPRESS_GZIP [Byte.x04; Byte.x61]]))
    /\ has_flag fl' GRPC_WRITE_INTERNAL_COMPRESS = false.
Proof.
  destruct (@DecompressMessage_after_size_check (fixture false) fixture_filter
              GRPC_COMPRESS_GZIP (Some 10%N)
              (mkState (mkMessage [Byte.x04; Byte.x61]
                          GRPC_WRITE_INTERNAL_COMPRESS) [])
              eq_refl) as [_ Hcall].
  destruct (Hcall eq_refl eq_refl 1 aaaa eq_refl) as [log [_ [_ Hok]]].
  assert (Hne : 1 <> 0) by discriminate.
  destruct (Hok Hne) as [fl' [Hrun [Hic _]]].
  exists fl', log. split; [exact Hrun | exact Hic].
Defined.



(** ** [CompressMessage] *)

(** The test that sends [CompressMessage] to its early return. *)
Lemma compress_guard_iff (filter : CompressionFilter)
  (algorithm : grpc_compression_algorithm) (fl : Z) :
  (algorithm =? GRPC_COMPRESS_NONE) || negb (enable_compression_ filter)
  || has_flag fl (Z.lor GRPC_WRITE_NO_COMPRESS GRPC_WRITE_INTERNAL_COMPRESS)
  = true
  <-> algorithm = GRPC_COMPRESS_NONE
      \/ enable_compression_ filter = false
      \/ has_flag fl GRPC_WRITE_NO_COMPRESS = true
      \/ has_flag fl GRPC_WRITE_INTERNAL_COMPRESS = true.
Proof.
  rewrite has_flag_lor, !orb_true_iff, negb_true_iff, Z.eqb_eq. tauto.
Qed.

(** The guard is passed when none of its four reasons holds. *)
Lemma compress_guard_passed (filter : CompressionFilter)
  (algorithm : grpc_compression_algorithm) (fl : Z) :
  algorithm <> GRPC_COMPRESS_NONE ->
  enable_compression_ filter = true ->
  has_flag fl GRPC_WRITE_NO_COMPRESS = false ->
  has_flag fl GRPC_WRITE_INTERNAL_COMPRESS = false ->
  (algorithm =? GRPC_COMPRESS_NONE) || negb (enable_compression_ filter)
  || has_flag fl (Z.lor GRPC_WRITE_NO_COMPRESS GRPC_WRITE_INTERNAL_COMPRESS)
  = false.
Proof.
  intros Halg Hen Hnc Hic. apply not_true_is_false. intros Hg.
  apply compress_guard_iff in Hg.
  destruct Hg as [Hg | [Hg | [Hg | Hg]]]; congruence.
Qed.

(** The assertion of the trace blocks holds for an algorithm with a name. *)
Lemma named_when_traced {env : Collaborators}
  (algorithm : grpc_compression_algorithm) :
  (grpc_compression_trace = true ->
   grpc_compression_algorithm_name algorithm <> None) ->
  grpc_compression_trace = true ->
  has_value (grpc_compression_algorithm_name algorithm) = true.
Proof.
  intros Hname Htrace. specialize (Hname Htrace).
  destruct (grpc_compression_algorithm_name algorithm);
    [reflexivity | contradiction].
Qed.

(** C4.  [CompressMessage] returns the message unchanged, adding nothing but
    its trace line to the trace (the compression routine is not called),
    whenever the algorithm is none, or compression is disabled in the filter,
    or the message carries the do-not-compress flag or the
    internally-compressed flag. *)
Theorem CompressMessage_identity {env : Collaborators}
  (filter : CompressionFilter) (algorithm : grpc_compression_algorithm)
  (s : state) :
  algorithm = GRPC_COMPRESS_NONE
  \/ enable_compression_ filter = false
  \/ has_flag (flags (st_message s)) GRPC_WRITE_NO_COMPRESS = true
  \/ has_flag (flags (st_message s)) GRPC_WRITE_INTERNAL_COMPRESS = true ->
  exists log,
    forallb is_log log = true
    /\ CompressMessage filter tt algorithm s
       = Done tt (mkState (st_message s) (st_events s ++ log)).
Proof.
  intros Hwhy. apply CompressMessage_returns_unchanged.
  apply compress_guard_iff. exact Hwhy.
Qed.

(** A compressible message flagged do-not-compress, with gzip. *)
Lemma CompressMessage_identity_witness :
  exists log,
    forallb is_log log = true
    /\ @CompressMessage (fixture true) fixture_filter tt GRPC_COMPRESS_GZIP
         (mkState (mkMessage aaaa GRPC_WRITE_NO_COMPRESS) [])
       = Done tt (mkState (mkMessage aaaa GRPC_WRITE_NO_COMPRESS) ([] ++ log)).
Proof.
  apply (@CompressMessage_identity (fixture true) fixture_filter
           GRPC_COMPRESS_GZIP
           (mkState (mkMessage aaaa GRPC_WRITE_NO_COMPRESS) [])).
  right. right. left. reflexivity.
Defined.

(** C3.  When [CompressMessage] attempts to compress (the algorithm is not
    none, compression is enabled, the message carries neither the
    do-not-compress nor the internally-compressed flag), the call returns,
    having called the compression routine exactly once on the payload.  If the
    routine reports a reduction (a non-zero result) the payload becomes the
    scratch buffer and the internally-compressed flag is set, the other flags
    kept; if it reports none the message is the input message, payload and
    flags, so the internally-compressed flag is not set.  No path returns an
    error.  The algorithm is one the code's own assertion admits: it has a
    name whenever tracing is on, as none, deflate and gzip have. *)
Theorem CompressMessage_attempt {env : Collaborators}
  (filter : CompressionFilter) (algorithm : grpc_compression_algorithm)
  (s : state) (r : Z) (tmp : SliceBuffer) :
  algorithm <> GRPC_COMPRESS_NONE ->
  enable_compression_ filter = true ->
  has_flag (flags (st_message s)) GRPC_WRITE_NO_COMPRESS = false ->
  has_flag (flags (st_message s)) GRPC_WRITE_INTERNAL_COMPRESS = false ->
  (grpc_compression_trace = true ->
   grpc_compression_algorithm_name algorithm <> None) ->
  grpc_msg_compress algorithm (payload (st_message s)) = (r, tmp) ->
  exists s' log1 log2,
    CompressMessage filter tt algorithm s = Done tt s'
    /\ forallb is_log log1 = true /\ forallb is_log log2 = true
    /\ st_events s'
       = st_events s ++ log1
         ++ EvCompress algorithm (payload (st_message s)) :: log2
    /\ (r <> 0 ->
        payload (st_message s') = tmp
        /\ flags (st_message s')
           = Z.lor (flags (st_message s)) GRPC_WRITE_INTERNAL_COMPRESS
        /\ has_flag (flags (st_message s')) GRPC_WRITE_INTERNAL_COMPRESS
           = true)
    /\ (r = 0 ->
        st_message s' = st_message s
        /\ has_flag (flags (st_message s')) GRPC_WRITE_INTERNAL_COMPRESS
           = false).
Proof.
  intros Halg Hen Hnc Hic Hname Hcall.
  destruct (CompressMessage_compresses filter algorithm s r tmp
              (compress_guard_passed filter algorithm _ Halg Hen Hnc Hic)
              (named_when_traced algorithm Hname) Hcall)
    as [log1 [log2 [Hl1 [Hl2 Hrun]]]].
  eexists _, log1, log2. split; [exact Hrun |].
  split; [exact Hl1 |]. split; [exact Hl2 |]. cbn [st_events st_message].
  split; [reflexivity |]. split.
  - intros Hr. apply Z.eqb_neq in Hr. rewrite Hr. cbn [payload flags].
    split; [reflexivity |]. split; [reflexivity |].
    rewrite has_flag_internal_compress, compressed_flags_bits by lia.
    apply orb_true_r.
  - intros ->. cbn [Z.eqb]. split; [reflexivity | exact Hic].
Qed.

(** Gzip shrinks four equal bytes to two, with tracing on. *)
Lemma CompressMessage_attempt_witness :
  exists s',
    @CompressMessage (fixture true) fixture_filter tt GRPC_COMPRESS_GZIP
      (mkState (mkMessage aaaa 0) [])
    = Done tt s'
    /\ payload (st_message s') = [Byte.x04; Byte.x61]
    /\ has_flag (flags (st_message s')) GRPC_WRITE_INTERNAL_COMPRESS = true.
Proof.
  assert (Hgzip : GRPC_COMPRESS_GZIP <> GRPC_COMPRESS_NONE) by discriminate.
  assert (Hname : @grpc_compression_trace (fixture true) = true ->
                  @grpc_compression_algorithm_name (fixture true)
                    GRPC_COMPRESS_GZIP <> None)
    by (intros _; discriminate).
  assert (Hne : 1 <> 0) by discriminate.
  destruct (@CompressMessage_attempt (fixture true) fixture_filter
              GRPC_COMPRESS_GZIP (mkState (mkMessage aaaa 0) []) 1
              [Byte.x04; Byte.x61] Hgzip eq_refl eq_refl eq_refl Hname
              eq_refl)
    as [s' [log1 [log2 [Hrun [_ [_ [_ [Hyes _]]]]]]]].
  destruct (Hyes Hne) as [Hp [_ Hic]].
  exists s'. split; [exact Hrun |]. split; [exact Hp | exact Hic].
Defined.

(** The assertion of the trace blocks at work.  The count sentinel
    [GRPC_COMPRESS_ALGORITHMS_COUNT] names no algorithm; the callers of
    [CompressMessage] never pass it.  Passed all the same, with tracing on,
    it takes the call through the routine to the assertion on the name of the
    algorithm, which stops the process. *)
Lemma CompressMessage_attempt_aborts_unnamed :
  GRPC_COMPRESS_ALGORITHMS_COUNT <> GRPC_COMPRESS_NONE
  /\ enable_compression_ fixture_filter = true
  /\ has_flag 0 GRPC_WRITE_NO_COMPRESS = false
  /\ has_flag 0 GRPC_WRITE_INTERNAL_COMPRESS = false
  /\ @grpc_msg_compress (fixture true) GRPC_COMPRESS_ALGORITHMS_COUNT abcd
     = (0, abcd)
  /\ @CompressMessage (fixture true) fixture_filter tt
       GRPC_COMPRESS_ALGORITHMS_COUNT (mkState (mkMessage abcd 0) [])
     = Aborted
         (mkState (mkMessage abcd 0)
            [EvLog GPR_ERROR "CompressMessage: len=%ld alg=%d flags=%d"
               [LogInt 4; LogInt 3; LogInt 0];
             EvCompress GRPC_COMPRESS_ALGORITHMS_COUNT abcd]).
Proof.
  split; [discriminate |]. repeat split.
Qed.

(** ** Construction *)

(** What the constructor establishes.  Construction never fails.  The filter
    keeps the enabled set of the channel arguments.  A configured default
    (none when the arguments give no default) that is enabled is kept, with
    no diagnostic; one that is not enabled is replaced by none and one line
    is logged.  The effective default is a member of the enabled set whenever
    the configured default, or none, is enabled. *)
Theorem CompressionFilter_effective_default {env : Collaborators}
  (args : ChannelArgs) :
  let configured :=
    value_or (default_compression_algorithm args) GRPC_COMPRESS_NONE in
  let enabled := enabled_compression_algorithms args in
  exists filter diagnostics,
    Create args = (StatusOr_ok filter, diagnostics)
    /\ enabled_compression_algorithms_ filter = enabled
    /\ (IsSet enabled configured = true ->
        default_compression_algorithm_ filter = configured
        /\ diagnostics = [])
    /\ (IsSet enabled configured = false ->
        default_compression_algorithm_ filter = GRPC_COMPRESS_NONE
        /\ exists name,
             diagnostics
             = [EvLog GPR_ERROR
                  "default compression algorithm %s not enabled: switching to none"
                  [LogStr name]])
    /\ (IsSet enabled configured = true
        \/ IsSet enabled GRPC_COMPRESS_NONE = true ->
        IsSet (enabled_compression_algorithms_ filter)
          (default_compression_algorithm_ filter) = true).
Proof.
  cbv zeta. unfold Create, CompressionFilter_new.
  cbn [enabled_compression_algorithms_ default_compression_algorithm_].
  unfold CompressionAlgorithmSet_FromChannelArgs,
    DefaultCompressionAlgorithmFromChannelArgs.
  destruct (IsSet (enabled_compression_algorithms args)
              (value_or (default_compression_algorithm args)
                 GRPC_COMPRESS_NONE)) eqn:Hset; cbn [negb].
  - eexists _, _. split; [reflexivity |].
    cbn [enabled_compression_algorithms_ default_compression_algorithm_].
    split; [reflexivity |]. split; [intros _; split; reflexivity |].
    split; [discriminate |]. intros _. exact Hset.
  - eexists _, _. split; [reflexivity |].
    cbn [enabled_compression_algorithms_ default_compression_algorithm_].
    split; [reflexivity |]. split; [discriminate |].
    split; [intros _; split; [reflexivity | eexists; reflexivity] |].
    intros [Habs | Hnone]; [discriminate Habs | exact Hnone].
Qed.

(** The default of a constructed filter is an algorithm below the count,
    whatever the channel arguments configure: a default outside the range is
    never enabled, and is replaced by none. *)
Lemma CompressionFilter_default_in_range {env : Collaborators}
  (args : ChannelArgs) :
  let filter := fst (CompressionFilter_new args) in
  0 <= default_compression_algorithm_ filter < GRPC_COMPRESS_ALGORITHMS_COUNT.
Proof.
  cbv zeta. unfold CompressionFilter_new.
  cbn [enabled_compression_algorithms_ default_compression_algorithm_].
  destruct (IsSet _ _) eqn:Hset; cbn [negb fst default_compression_algorithm_].
  - unfold IsSet in Hset.
    apply andb_prop in Hset. destruct Hset as [Hrange _].
    apply andb_prop in Hrange. destruct Hrange as [Hlow Hhigh].
    apply Z.leb_le in Hlow. apply Z.ltb_lt in Hhigh. split; assumption.
  - unfold GRPC_COMPRESS_NONE, GRPC_COMPRESS_ALGORITHMS_COUNT. lia.
Qed.

(** C6.  The constructor at channel arguments that enable gzip only and
    configure deflate as the default.  Construction does not fail and logs
    its diagnostic, and the effective default becomes none; but none is not
    in the enabled set, so the default the constructor leaves is not enabled,
    against the comment above its test ("Make sure the default is enabled")
    and against the invariant of the design document. *)
Lemma CompressionFilter_default_not_enabled :
  let args :=
    mkChannelArgs None (Some GRPC_COMPRESS_DEFLATE) (mkAlgorithmSet 4)
      None None in
  let filter := fst (@CompressionFilter_new (fixture false) args) in
  @Create (fixture false) args
  = (StatusOr_ok filter,
     [EvLog GPR_ERROR
        "default compression algorithm %s not enabled: switching to none"
        [LogStr "deflate"]])
  /\ IsSet (enabled_compression_algorithms_ filter) GRPC_COMPRESS_GZIP = true
  /\ default_compression_algorithm_ filter = GRPC_COMPRESS_NONE
  /\ IsSet (enabled_compression_algorithms_ filter)
       (default_compression_algorithm_ filter) = false.
Proof.
  cbv zeta. repeat split.
Qed.

(** ** The loops *)

(** C7.  The limit the decompress loop passes to [DecompressMessage] is the
    minimum of the channel-level maximum and the per-call maximum of the
    service config when both are present, the one that is present when only
    one is, and none (unbounded) when neither is. *)
Theorem DecompressLoop_TakeAndRun_limit {env : Collaborators}
  (filter : CompressionFilter) (ctx : grpc_call_context)
  (algorithm : grpc_compression_algorithm) :
  DecompressLoop_TakeAndRun filter ctx algorithm
  = PipeMapper_TakeAndRun
      (fun message =>
         DecompressMessage filter message algorithm
           (min_present (max_recv_size_ filter)
              (per_call_max_recv_size filter ctx))).
Proof.
  unfold DecompressLoop_TakeAndRun, per_call_max_recv_size.
  destruct (GetFromCallContext ctx
              (message_size_service_config_parser_index_ filter))
    as [limits |].
  - destruct (max_recv_size limits) as [y |];
      destruct (max_recv_size_ filter) as [x |];
      cbn [has_value value_or andb orb negb min_present];
      try reflexivity.
    destruct (N.ltb_spec y x) as [Hlt | Hge].
    + rewrite N.min_r by lia. reflexivity.
    + rewrite N.min_l by lia. reflexivity.
  - destruct (max_recv_size_ filter); reflexivity.
Qed.

(** What the compress loop forwards: each forwarded message is what
    [CompressMessage] made of the message at the same place of the pipe; the
    loop never ends with an error status; and when it ends normally every
    message of the pipe was forwarded. *)
Lemma compress_pump_forwards {env : Collaborators}
  (filter : CompressionFilter) (algorithm : grpc_compression_algorithm)
  (pipe : list Message) :
  forall events,
    let r :=
      PipeMapper_TakeAndRun (compress_with filter algorithm) pipe events in
    Forall2 (compressed_by filter algorithm)
      (firstn (List.length (forwarded r)) pipe) (forwarded r)
    /\ (forall status, pump_status r <> PumpFailed status)
    /\ (pump_status r = PumpOk ->
        List.length (forwarded r) = List.length pipe).
Proof.
  induction pipe as [| m rest IH]; intros events; cbv zeta.
  - cbn. split; [constructor |]. split; [discriminate | reflexivity].
  - cbn [PipeMapper_TakeAndRun].
    remember (PipeMapper_TakeAndRun (compress_with filter algorithm) rest)
      as pump_rest eqn:Hrest.
    unfold compress_with, bind, ret.
    destruct (CompressMessage filter tt algorithm (mkState m events))
      as [[] s' | s'] eqn:Hrun.
    + subst pump_rest. destruct (IH (st_events s')) as [Hfw [Hstatus Hlen]].
      cbn [forwarded pump_status List.length firstn]. split.
      * constructor; [| exact Hfw].
        exists events, (st_events s'). rewrite Hrun. destruct s'. reflexivity.
      * split; [exact Hstatus |]. intros Hok. f_equal. exact (Hlen Hok).
    + cbn. split; [constructor |]. split; discriminate.
Qed.

(** ** Round trip *)

(** C8.  Take a message without the internally-compressed and do-not-compress
    flags, a filter with compression and decompression enabled, and an
    algorithm that reduces the payload: the compression routine reports a
    reduction, its output is no longer than the payload, the decompression
    routine gives the payload back from it, and the algorithm has a name
    whenever tracing asks for it.  Then [CompressMessage] followed by
    [DecompressMessage], with a limit of at least the length of the payload,
    returns a message with the payload of the input and the
    internally-compressed flag not set. *)
Theorem compress_decompress_round_trip {env : Collaborators}
  (filter : CompressionFilter) (algorithm : grpc_compression_algorithm)
  (limit : N) (s : state) (r r' : Z) (compressed : SliceBuffer) :
  has_flag (flags (st_message s)) GRPC_WRITE_INTERNAL_COMPRESS = false ->
  has_flag (flags (st_message s)) GRPC_WRITE_NO_COMPRESS = false ->
  enable_compression_ filter = true ->
  enable_decompression_ filter = true ->
  grpc_msg_compress algorithm (payload (st_message s)) = (r, compressed) ->
  r <> 0 ->
  (Length compressed <= Length (payload (st_message s)))%N ->
  grpc_msg_decompress algorithm compressed = (r', payload (st_message s)) ->
  r' <> 0 ->
  (grpc_compression_trace = true ->
   grpc_compression_algorithm_name algorithm <> None) ->
  (Length (payload (st_message s)) <= limit)%N ->
  exists s1 s2,
    CompressMessage filter tt algorithm s = Done tt s1
    /\ DecompressMessage filter tt algorithm (Some limit) s1
       = Done (StatusOr_ok tt) s2
    /\ payload (st_message s2) = payload (st_message s)
    /\ has_flag (flags (st_message s2)) GRPC_WRITE_INTERNAL_COMPRESS = false.
Proof.
  intros Hic Hnc Hce Hde Hc Hr Hshrink Hd Hr' Hname Hlimit.
  destruct (Z.eq_dec algorithm GRPC_COMPRESS_NONE) as [Hnone | Halg].
  - assert (Hguard :
              (algorithm =? GRPC_COMPRESS_NONE)
              || negb (enable_compression_ filter)
              || has_flag (flags (st_message s))
                   (Z.lor GRPC_WRITE_NO_COMPRESS GRPC_WRITE_INTERNAL_COMPRESS)
              = true).
    { apply compress_guard_iff. left. exact Hnone. }
    destruct (CompressMessage_returns_unchanged filter algorithm s Hguard)
      as [log [_ Hrun]].
    assert (Hex : exceeds (Some limit)
                    (st_message (mkState (st_message s) (st_events s ++ log)))
                  = false).
    { cbn [exceeds st_message]. apply N.ltb_ge. exact Hlimit. }
    destruct (DecompressMessage_pass_through filter algorithm (Some limit)
                _ Hex (or_intror Hic)) as [log' [_ Hrun']].
    eexists _, _. split; [exact Hrun |]. split; [exact Hrun' |].
    split; [reflexivity | exact Hic].
  - destruct (CompressMessage_compresses filter algorithm s r compressed
                (compress_guard_passed filter algorithm _ Halg Hce Hnc Hic)
                (named_when_traced algorithm Hname) Hc)
      as [log1 [log2 [_ [_ Hrun]]]].
    apply Z.eqb_neq in Hr. rewrite Hr in Hrun.
    remember (mkState
                (mkMessage compressed
                   (Z.lor (flags (st_message s))
                      GRPC_WRITE_INTERNAL_COMPRESS))
                (st_events s ++ log1
                 ++ EvCompress algorithm (payload (st_message s)) :: log2))
      as s1 eqn:Hs1.
    assert (Hp : payload (st_message s1) = compressed)
      by (subst s1; reflexivity).
    assert (Hset : has_flag (flags (st_message s1))
                     GRPC_WRITE_INTERNAL_COMPRESS = true).
    { subst s1. cbn [st_message flags].
      rewrite has_flag_internal_compress, compressed_flags_bits by lia.
      apply orb_true_r. }
    assert (Hex : exceeds (Some limit) (st_message s1) = false).
    { cbn [exceeds]. rewrite Hp. apply N.ltb_ge. lia. }
    assert (Hd' : grpc_msg_decompress algorithm (payload (st_message s1))
                  = (r', payload (st_message s))).
    { rewrite Hp. exact Hd. }
    destruct (DecompressMessage_decompresses filter algorithm (Some limit)
                s1 r' _ Hex Hde Hset Hd') as [log [_ Hrun']].
    apply Z.eqb_neq in Hr'. rewrite Hr' in Hrun'.
    eexists _, _. split; [exact Hrun |]. split; [exact Hrun' |].
    cbn [st_message payload flags]. split; [reflexivity |].
    rewrite has_flag_internal_compress, decompressed_flags_bits by lia.
    change (31 <? 31) with false. change (31 =? 30) with false.
    rewrite andb_false_r. reflexivity.
Qed.

(** Four equal bytes through gzip and back, under a limit of their length. *)
Lemma compress_decompress_round_trip_witness :
  exists s1 s2,
    @CompressMessage (fixture true) fixture_filter tt GRPC_COMPRESS_GZIP
      (mkState (mkMessage aaaa 0) [])
    = Done tt s1
    /\ @DecompressMessage (fixture true) fixture_filter tt GRPC_COMPRESS_GZIP
         (Some 4%N) s1
       = Done (StatusOr_ok tt) s2
    /\ payload (st_message s2) = aaaa
    /\ has_flag (flags (st_message s2)) GRPC_WRITE_INTERNAL_COMPRESS = false.
Proof.
  assert (Hname : @grpc_compression_trace (fixture true) = true ->
                  @grpc_compression_algorithm_name (fixture true)
                    GRPC_COMPRESS_GZIP <> None)
    by (intros _; discriminate).
  assert (Hr : 1 <> 0) by discriminate.
  assert (Hshrink : (Length [Byte.x04; Byte.x61] <= Length aaaa)%N)
    by (vm_compute; discriminate).
  assert (Hlimit : (Length aaaa <= 4)%N) by (vm_compute; discriminate).
  exact (@compress_decompress_round_trip (fixture true) fixture_filter
           GRPC_COMPRESS_GZIP 4%N (mkState (mkMessage aaaa 0) []) 1 1
           [Byte.x04; Byte.x61] eq_refl eq_refl eq_refl eq_refl eq_refl Hr
           Hshrink eq_refl Hr Hname Hlimit).
Defined.

(** ** The scenarios of the design document *)

(** Scenario 4: a limit of 1024 and a message of 2048 bytes on the wire.  The
    call fails before the routine is reached, although the message is flagged
    compressed. *)
Example scenario_oversized_message :
  @DecompressMessage (fixture false) fixture_filter tt GRPC_COMPRESS_GZIP
    (Some 1024%N)
    (mkState (mkMessage (repeat Byte.x00 2048) GRPC_WRITE_INTERNAL_COMPRESS) [])
  = Done (StatusOr_error (ResourceExhaustedError
            "Received message larger than max (2048 vs. 1024)"))
      (mkState (mkMessage (repeat Byte.x00 2048) GRPC_WRITE_INTERNAL_COMPRESS)
         []).
Proof. vm_compute. reflexivity. Qed.

(** Scenario 1: gzip requested, gzip and none enabled.  After the negotiation
    the metadata advertises the enabled set and announces gzip, and the
    request is gone. *)
Example scenario_client_requests_gzip :
  fst (@CompressLoop_TakeAndRun (fixture false)
         (mkCompressionFilter None 0%N GRPC_COMPRESS_NONE (mkAlgorithmSet 5)
            true true)
         (mkMetadata (Some GRPC_COMPRESS_GZIP) None None []))
  = mkMetadata None (Some (mkAlgorithmSet 5)) (Some GRPC_COMPRESS_GZIP) [].
Proof. reflexivity. Qed.

(** Scenario 3: the requested encoding none overrides a gzip channel default,
    no encoding is announced and the loop leaves the messages as they are. *)
Example scenario_override_to_none :
  let filter :=
    mkCompressionFilter None 0%N GRPC_COMPRESS_GZIP (mkAlgorithmSet 5)
      true true in
  let run :=
    @CompressLoop_TakeAndRun (fixture false) filter
      (mkMetadata (Some GRPC_COMPRESS_NONE) None None []) in
  fst run = mkMetadata None (Some (mkAlgorithmSet 5)) None []
  /\ snd run [mkMessage aaaa 0; mkMessage abcd 0] []
     = mkPump [mkMessage aaaa 0; mkMessage abcd 0] PumpOk [].
Proof. cbv zeta. split; reflexivity. Qed.

(** A decompression failure is an internal error that names the algorithm, and
    leaves the message as it arrived. *)
Example decompression_failure_is_internal :
  @DecompressMessage (fixture false) fixture_filter tt GRPC_COMPRESS_GZIP None
    (mkState (mkMessage abcd GRPC_WRITE_INTERNAL_COMPRESS) [])
  = Done (StatusOr_error (InternalError
            "Unexpected error decompressing data for algorithm gzip"))
      (mkState (mkMessage abcd GRPC_WRITE_INTERNAL_COMPRESS)
         [EvDecompress GRPC_COMPRESS_GZIP abcd]).
Proof. reflexivity. Qed.

(** * Further properties of the transformers *)

(** ** One equation for each transformer *)

Lemma calls_of_app (a b : list event) :
  calls_of (a ++ b) = calls_of a ++ calls_of b.
Proof. apply filter_app. Qed.

Lemma calls_of_logs (log : list event) :
  forallb is_log log = true -> calls_of log = [].
Proof.
  induction log as [| e log IH]; intros Hlog; [reflexivity |].
  cbn in Hlog. apply andb_true_iff in Hlog. destruct Hlog as [He Hlog].
  cbn. rewrite He. cbn. apply IH. exact Hlog.
Qed.

(** Every run of [DecompressMessage], by the tests it makes. *)
Lemma DecompressMessage_cases {env : Collaborators}
  (filter : CompressionFilter) (algorithm : grpc_compression_algorithm)
  (max : option N) (s : state) :
  exists log, forallb is_log log = true /\
    DecompressMessage filter tt algorithm max s
    = if exceeds max (st_message s)
      then Done (StatusOr_error (ResourceExhaustedError
                   ("Received message larger than max ("
                    ++ dec (Length (payload (st_message s))) ++ " vs. "
                    ++ dec (value_or max 0%N) ++ ")")))
             (mkState (st_message s) (st_events s ++ log))
      else if negb (enable_decompression_ filter)
              || negb (has_flag (flags (st_message s))
                         GRPC_WRITE_INTERNAL_COMPRESS)
      then Done (StatusOr_ok tt) (mkState (st_message s) (st_events s ++ log))
      else if fst (grpc_msg_decompress algorithm (payload (st_message s))) =? 0
      then Done (StatusOr_error (InternalError
                   ("Unexpected error decompressing data for algorithm "
                    ++ CompressionAlgorithmAsString algorithm)))
             (mkState (st_message s)
                (st_events s ++ log
                 ++ [EvDecompress algorithm (payload (st_message s))]))
      else Done (StatusOr_ok tt)
             (mkState
                (mkMessage
                   (snd (grpc_msg_decompress algorithm
                           (payload (st_message s))))
                   (Z.lor (Z.land (flags (st_message s))
                             (uint32_not GRPC_WRITE_INTERNAL_COMPRESS))
                      GRPC_WRITE_INTERNAL_TEST_ONLY_WAS_COMPRESSED))
                (st_events s ++ log
                 ++ [EvDecompress algorithm (payload (st_message s))])).
Proof.
  destruct (exceeds max (st_message s)) eqn:Hex.
  - apply DecompressMessage_too_large. exact Hex.
  - destruct (enable_decompression_ filter) eqn:Hen; cbn [negb orb].
    + destruct (has_flag (flags (st_message s)) GRPC_WRITE_INTERNAL_COMPRESS)
        eqn:Hfl; cbn [negb].
      * destruct (grpc_msg_decompress algorithm (payload (st_message s)))
          as [r out] eqn:Hcall. cbn [fst snd].
        apply DecompressMessage_decompresses; assumption.
      * apply DecompressMessage_pass_through; [exact Hex | right; exact Hfl].
    + apply DecompressMessage_pass_through; [exact Hex | left; exact Hen].
Qed.

(** Every run of [CompressMessage], by the tests it makes. *)
Lemma CompressMessage_cases {env : Collaborators}
  (filter : CompressionFilter) (algorithm : grpc_compression_algorithm)
  (s : state) :
  exists log1 log2,
    forallb is_log log1 = true /\ forallb is_log log2 = true /\
    CompressMessage filter tt algorithm s
    = if (algorithm =? GRPC_COMPRESS_NONE)
         || negb (enable_compression_ filter)
         || has_flag (flags (st_message s))
              (Z.lor GRPC_WRITE_NO_COMPRESS GRPC_WRITE_INTERNAL_COMPRESS)
      then Done tt (mkState (st_message s) (st_events s ++ log1))
      else if grpc_compression_trace
              && negb (has_value (grpc_compression_algorithm_name algorithm))
      then Aborted
             (mkState (st_message s)
                (st_events s ++ log1
                 ++ [EvCompress algorithm (payload (st_message s))]))
      else Done tt
             (mkState
                (if fst (grpc_msg_compress algorithm (payload (st_message s)))
                    =? 0
                 then st_message s
                 else mkMessage
                        (snd (grpc_msg_compress algorithm
                                (payload (st_message s))))
                        (Z.lor (flags (st_message s))
                           GRPC_WRITE_INTERNAL_COMPRESS))
                (st_events s ++ log1
                 ++ EvCompress algorithm (payload (st_message s)) :: log2)).
Proof.
  destruct ((algorithm =? GRPC_COMPRESS_NONE)
            || negb (enable_compression_ filter)
            || has_flag (flags (st_message s))
                 (Z.lor GRPC_WRITE_NO_COMPRESS GRPC_WRITE_INTERNAL_COMPRESS))
    eqn:Hguard.
  - destruct (CompressMessage_returns_unchanged filter algorithm s Hguard)
      as [log [Hlog Hrun]].
    exists log, []. split; [exact Hlog |]. split; [reflexivity | exact Hrun].
  - destruct grpc_compression_trace eqn:Htrace; cbn [andb].
    + destruct (grpc_compression_algorithm_name algorithm) as [name |]
        eqn:Hname; cbn [has_value negb].
      * destruct (grpc_msg_compress algorithm (payload (st_message s)))
          as [r tmp] eqn:Hcall. cbn [fst snd].
        apply CompressMessage_compresses; [exact Hguard | | exact Hcall].
        intros _. rewrite Hname. reflexivity.
      * destruct (CompressMessage_assertion_fails filter algorithm s Hguard
                    Htrace Hname) as [log [Hlog Hrun]].
        exists log, []. split; [exact Hlog |].
        split; [reflexivity | exact Hrun].
    + destruct (grpc_msg_compress algorithm (payload (st_message s)))
        as [r tmp] eqn:Hcall. cbn [fst snd].
      apply CompressMessage_compresses; [exact Hguard | | exact Hcall].
      intros Habs. rewrite Htrace in Habs. discriminate Habs.
Qed.

(** ** Flag words that fit 32 bits *)

Lemma is_uint32_land_ones (z : Z) :
  is_uint32 z <-> Z.land z (Z.ones 32) = z.
Proof.
  unfold is_uint32. rewrite Z.land_ones by lia. split.
  - intros H. apply Z.mod_small. exact H.
  - intros H. rewrite <- H. apply Z.mod_pos_bound. lia.
Qed.

Lemma is_uint32_lor (a b : Z) :
  is_uint32 a -> is_uint32 b -> is_uint32 (Z.lor a b).
Proof.
  rewrite !is_uint32_land_ones. intros Ha Hb.
  rewrite Z.land_lor_distr_l, Ha, Hb. reflexivity.
Qed.

Lemma is_uint32_land (a b : Z) : is_uint32 a -> is_uint32 (Z.land a b).
Proof.
  rewrite !is_uint32_land_ones. intros Ha.
  rewrite <- Z.land_assoc, (Z.land_comm b), Z.land_assoc, Ha. reflexivity.
Qed.

Lemma is_uint32_flags :
  is_uint32 GRPC_WRITE_INTERNAL_COMPRESS
  /\ is_uint32 GRPC_WRITE_INTERNAL_TEST_ONLY_WAS_COMPRESSED.
Proof. unfold is_uint32. split; split; (discriminate || reflexivity). Qed.

(** A message with the internally-compressed bit set does not pass the test
    of [CompressMessage]. *)
Lemma compressed_flags_stop_compression (filter : CompressionFilter)
  (algorithm : grpc_compression_algorithm) (fl : Z) :
  (algorithm =? GRPC_COMPRESS_NONE) || negb (enable_compression_ filter)
  || has_flag (Z.lor fl GRPC_WRITE_INTERNAL_COMPRESS)
       (Z.lor GRPC_WRITE_NO_COMPRESS GRPC_WRITE_INTERNAL_COMPRESS) = true.
Proof.
  rewrite has_flag_lor, has_flag_internal_compress,
    compressed_flags_bits by lia.
  change (31 =? 31) with true. rewrite !orb_true_r. reflexivity.
Qed.

(** ** [CompressMessage], once more *)

(** X1.  [CompressMessage] is idempotent on the message: when a call returns,
    a second call with the same algorithm on its result returns too and
    leaves the message as the first call made it.  A message is never
    compressed twice. *)
Theorem CompressMessage_idempotent {env : Collaborators}
  (filter : CompressionFilter) (algorithm : grpc_compression_algorithm)
  (s s1 : state) :
  CompressMessage filter tt algorithm s = Done tt s1 ->
  exists s2,
    CompressMessage filter tt algorithm s1 = Done tt s2
    /\ st_message s2 = st_message s1.
Proof.
  intros Hrun.
  destruct (CompressMessage_cases filter algorithm s)
    as [log1 [log2 [_ [_ Hfirst]]]].
  destruct (CompressMessage_cases filter algorithm s1)
    as [log1' [log2' [_ [_ Hsecond]]]].
  rewrite Hrun in Hfirst.
  destruct ((algorithm =? GRPC_COMPRESS_NONE)
            || negb (enable_compression_ filter)
            || has_flag (flags (st_message s))
                 (Z.lor GRPC_WRITE_NO_COMPRESS GRPC_WRITE_INTERNAL_COMPRESS))
    eqn:Hguard.
  - injection Hfirst as ->. cbn [st_message] in Hsecond.
    rewrite Hguard in Hsecond. eexists. split; [exact Hsecond | reflexivity].
  - destruct (grpc_compression_trace
              && negb (has_value (grpc_compression_algorithm_name algorithm)))
      eqn:Hassert; [discriminate Hfirst |].
    injection Hfirst as ->. cbn [st_message] in Hsecond.
    destruct (fst (grpc_msg_compress algorithm (payload (st_message s))) =? 0)
      eqn:Hr.
    + rewrite Hguard, Hr in Hsecond.
      eexists. split; [exact Hsecond | reflexivity].
    + cbn [flags] in Hsecond.
      rewrite compressed_flags_stop_compression in Hsecond.
      eexists. split; [exact Hsecond | reflexivity].
Qed.

(** Gzip on four equal bytes, twice. *)
Lemma CompressMessage_idempotent_witness :
  exists s2,
    @CompressMessage (fixture true) fixture_filter tt GRPC_COMPRESS_GZIP
      (mkState
         (mkMessage [Byte.x04; Byte.x61] GRPC_WRITE_INTERNAL_COMPRESS)
         [EvLog GPR_ERROR "CompressMessage: len=%ld alg=%d flags=%d"
            [LogInt 4; LogInt 2; LogInt 0];
          EvCompress 2 aaaa;
          EvLog GPR_INFO
            "Compressed[%s] %lu bytes vs. %lu bytes (%.2f%% savings)"
            [LogStr "gzip"; LogInt 4; LogInt 2; LogSavings 4 2]])
    = Done tt s2
    /\ st_message s2
       = mkMessage [Byte.x04; Byte.x61] GRPC_WRITE_INTERNAL_COMPRESS.
Proof.
  exact (@CompressMessage_idempotent (fixture true) fixture_filter
           GRPC_COMPRESS_GZIP (mkState (mkMessage aaaa 0) []) _ eq_refl).
Defined.

(** X2.  What a returning [CompressMessage] may change.  No flag other than
    the internally-compressed bit changes, and a flag word that fits 32 bits
    still does.  The message is either the input message, or it was
    compressed: the input carried neither the do-not-compress nor the
    internally-compressed flag, the routine reported a reduction, the payload
    is what the routine wrote and the internally-compressed flag is set. *)
Theorem CompressMessage_changes {env : Collaborators}
  (filter : CompressionFilter) (algorithm : grpc_compression_algorithm)
  (s s' : state) :
  CompressMessage filter tt algorithm s = Done tt s' ->
  (forall i, 0 <= i -> i <> 31 ->
     Z.testbit (flags (st_message s')) i = Z.testbit (flags (st_message s)) i)
  /\ (is_uint32 (flags (st_message s)) -> is_uint32 (flags (st_message s')))
  /\ (st_message s' = st_message s
      \/ (has_flag (flags (st_message s)) GRPC_WRITE_NO_COMPRESS = false
          /\ has_flag (flags (st_message s)) GRPC_WRITE_INTERNAL_COMPRESS
             = false
          /\ has_flag (flags (st_message s')) GRPC_WRITE_INTERNAL_COMPRESS
             = true
          /\ fst (grpc_msg_compress algorithm (payload (st_message s))) <> 0
          /\ payload (st_message s')
             = snd (grpc_msg_compress algorithm (payload (st_message s))))).
Proof.
  intros Hrun.
  destruct (CompressMessage_cases filter algorithm s)
    as [log1 [log2 [_ [_ Hcases]]]].
  rewrite Hrun in Hcases.
  destruct ((algorithm =? GRPC_COMPRESS_NONE)
            || negb (enable_compression_ filter)
            || has_flag (flags (st_message s))
                 (Z.lor GRPC_WRITE_NO_COMPRESS GRPC_WRITE_INTERNAL_COMPRESS))
    eqn:Hguard.
  - injection Hcases as ->. cbn [st_message].
    split; [reflexivity |]. split; [tauto | left; reflexivity].
  - destruct (grpc_compression_trace
              && negb (has_value (grpc_compression_algorithm_name algorithm)));
      [discriminate Hcases |].
    injection Hcases as ->. cbn [st_message].
    destruct (Z.eqb_spec
                (fst (grpc_msg_compress algorithm (payload (st_message s))))
                0) as [Hr | Hr].
    + split; [reflexivity |]. split; [tauto | left; reflexivity].
    + cbn [flags payload]. split.
      * intros i Hi Hne. rewrite compressed_flags_bits by exact Hi.
        replace (i =? 31) with false by (symmetry; apply Z.eqb_neq; exact Hne).
        apply orb_false_r.
      * split.
        -- intros Hfit. apply is_uint32_lor;
             [exact Hfit | apply is_uint32_flags].
        -- right. rewrite has_flag_lor in Hguard.
           apply orb_false_iff in Hguard. destruct Hguard as [_ Hflags].
           apply orb_false_iff in Hflags. destruct Hflags as [Hnc Hic].
           split; [exact Hnc |]. split; [exact Hic |].
           split; [| split; [exact Hr | reflexivity]].
           rewrite has_flag_internal_compress, compressed_flags_bits by lia.
           apply orb_true_r.
Qed.

(** Gzip on four equal bytes: the message was compressed. *)
Lemma CompressMessage_changes_witness :
  has_flag GRPC_WRITE_INTERNAL_COMPRESS GRPC_WRITE_NO_COMPRESS
  = has_flag 0 GRPC_WRITE_NO_COMPRESS.
Proof.
  destruct (@CompressMessage_changes (fixture false) fixture_filter
              GRPC_COMPRESS_GZIP (mkState (mkMessage aaaa 0) []) _ eq_refl)
    as [Hbits _].
  rewrite !(has_flag_pow2 _ 1) by lia. apply (Hbits 1); lia.
Defined.

(** ** [DecompressMessage], once more *)

(** X3.  What [DecompressMessage] hands on when it succeeds.  The payload was
    within the limit when it arrived.  With decompression enabled the message
    never carries the internally-compressed flag.  A message that arrived
    without that flag is returned as it is.  The flags below the two internal
    bits are kept, and a flag word that fits 32 bits still does. *)
Theorem DecompressMessage_ok_message {env : Collaborators}
  (filter : CompressionFilter) (algorithm : grpc_compression_algorithm)
  (max : option N) (s s' : state) :
  DecompressMessage filter tt algorithm max s = Done (StatusOr_ok tt) s' ->
  exceeds max (st_message s) = false
  /\ (enable_decompression_ filter = true ->
      has_flag (flags (st_message s')) GRPC_WRITE_INTERNAL_COMPRESS = false)
  /\ (has_flag (flags (st_message s)) GRPC_WRITE_INTERNAL_COMPRESS = false ->
      st_message s' = st_message s)
  /\ (forall i, 0 <= i < 30 ->
        Z.testbit (flags (st_message s')) i
        = Z.testbit (flags (st_message s)) i)
  /\ (is_uint32 (flags (st_message s)) -> is_uint32 (flags (st_message s'))).
Proof.
  intros Hrun.
  destruct (DecompressMessage_cases filter algorithm max s)
    as [log [_ Hcases]].
  rewrite Hrun in Hcases.
  destruct (exceeds max (st_message s)); [discriminate Hcases |].
  split; [reflexivity |].
  destruct (enable_decompression_ filter) eqn:Hen; cbn [negb orb] in Hcases.
  - destruct (has_flag (flags (st_message s)) GRPC_WRITE_INTERNAL_COMPRESS)
      eqn:Hfl; cbn [negb] in Hcases.
    + destruct (fst (grpc_msg_decompress algorithm (payload (st_message s)))
                =? 0); [discriminate Hcases |].
      injection Hcases as ->. cbn [st_message flags].
      split.
      * intros _. rewrite has_flag_internal_compress,
          decompressed_flags_bits by lia.
        change (31 <? 31) with false. change (31 =? 30) with false.
        rewrite andb_false_r. reflexivity.
      * split; [discriminate |]. split.
        -- intros i Hi. rewrite decompressed_flags_bits by lia.
           replace (i <? 31) with true by (symmetry; apply Z.ltb_lt; lia).
           replace (i =? 30) with false by (symmetry; apply Z.eqb_neq; lia).
           rewrite andb_true_r, orb_false_r. reflexivity.
        -- intros Hfit. apply is_uint32_lor; [| apply is_uint32_flags].
           apply is_uint32_land. exact Hfit.
    + injection Hcases as ->. cbn [st_message].
      split; [intros _; exact Hfl |]. split; [reflexivity |].
      split; [reflexivity | tauto].
  - injection Hcases as ->. cbn [st_message].
    split; [discriminate |]. split; [reflexivity |].
    split; [reflexivity | tauto].
Qed.

(** A compressed message within the limit, decompressed by the instance. *)
Lemma DecompressMessage_ok_message_witness :
  has_flag
    (Z.lor (Z.land GRPC_WRITE_INTERNAL_COMPRESS
              (uint32_not GRPC_WRITE_INTERNAL_COMPRESS))
       GRPC_WRITE_INTERNAL_TEST_ONLY_WAS_COMPRESSED)
    GRPC_WRITE_INTERNAL_COMPRESS = false.
Proof.
  destruct (@DecompressMessage_ok_message (fixture false) fixture_filter
              GRPC_COMPRESS_GZIP (Some 10%N)
              (mkState (mkMessage [Byte.x04; Byte.x61]
                          GRPC_WRITE_INTERNAL_COMPRESS) [])
              _ eq_refl) as [_ [Hclear _]].
  exact (Hclear eq_refl).
Defined.

(** ** Tracing *)

(** X4.  The trace flag changes nothing of [DecompressMessage] but the log:
    with the flag set either way and the same collaborators otherwise, the
    call returns the same result, leaves the same message and makes the same
    calls of the decompression routine. *)
Theorem DecompressMessage_trace_transparent (env : Collaborators) (b : bool)
  (filter : CompressionFilter) (algorithm : grpc_compression_algorithm)
  (max : option N) (s : state) :
  exists result s1 s2,
    @DecompressMessage env filter tt algorithm max s = Done result s1
    /\ @DecompressMessage (with_trace b env) filter tt algorithm max s
       = Done result s2
    /\ st_message s1 = st_message s2
    /\ calls_of (st_events s1) = calls_of (st_events s2).
Proof.
  destruct (@DecompressMessage_cases env filter algorithm max s)
    as [log1 [Hlog1 Hrun1]].
  destruct (@DecompressMessage_cases (with_trace b env) filter algorithm max s)
    as [log2 [Hlog2 Hrun2]].
  cbn [with_trace grpc_msg_decompress CompressionAlgorithmAsString] in Hrun2.
  rewrite Hrun1, Hrun2.
  destruct (exceeds max (st_message s));
    [| destruct (negb (enable_decompression_ filter)
                 || negb (has_flag (flags (st_message s))
                            GRPC_WRITE_INTERNAL_COMPRESS));
       [| destruct (fst (grpc_msg_decompress algorithm
                           (payload (st_message s))) =? 0)]];
    eexists _, _, _; (split; [reflexivity |]); (split; [reflexivity |]);
    (split; [reflexivity |]); cbn [st_events];
    rewrite !calls_of_app, (calls_of_logs log1 Hlog1),
      (calls_of_logs log2 Hlog2); reflexivity.
Qed.

(** X5.  The trace flag changes nothing of [CompressMessage] but the log when
    the algorithm has a name: with the flag set either way the call returns,
    leaves the same message and makes the same calls of the compression
    routine. *)
Theorem CompressMessage_trace_transparent (env : Collaborators) (b : bool)
  (filter : CompressionFilter) (algorithm : grpc_compression_algorithm)
  (s : state) :
  @grpc_compression_algorithm_name env algorithm <> None ->
  exists s1 s2,
    @CompressMessage env filter tt algorithm s = Done tt s1
    /\ @CompressMessage (with_trace b env) filter tt algorithm s = Done tt s2
    /\ st_message s1 = st_message s2
    /\ calls_of (st_events s1) = calls_of (st_events s2).
Proof.
  intros Hname.
  destruct (@CompressMessage_cases env filter algorithm s)
    as [log1 [log2 [Hlog1 [Hlog2 Hrun1]]]].
  destruct (@CompressMessage_cases (with_trace b env) filter algorithm s)
    as [log1' [log2' [Hlog1' [Hlog2' Hrun2]]]].
  cbn [with_trace grpc_msg_compress grpc_compression_algorithm_name
       grpc_compression_trace] in Hrun2.
  assert (Hnamed : negb (has_value
                           (@grpc_compression_algorithm_name env algorithm))
                   = false).
  { destruct (@grpc_compression_algorithm_name env algorithm);
      [reflexivity | contradiction]. }
  rewrite Hnamed, andb_false_r in Hrun1, Hrun2.
  rewrite Hrun1, Hrun2.
  destruct ((algorithm =? GRPC_COMPRESS_NONE)
            || negb (enable_compression_ filter)
            || has_flag (flags (st_message s))
                 (Z.lor GRPC_WRITE_NO_COMPRESS GRPC_WRITE_INTERNAL_COMPRESS));
    eexists _, _; (split; [reflexivity |]); (split; [reflexivity |]);
    (split; [reflexivity |]); cbn [st_events];
    rewrite !calls_of_app; cbn [calls_of List.filter is_log negb];
    fold (calls_of log2); fold (calls_of log2');
    rewrite ?(calls_of_logs log1 Hlog1), ?(calls_of_logs log1' Hlog1'),
      ?(calls_of_logs log2 Hlog2), ?(calls_of_logs log2' Hlog2');
    reflexivity.
Qed.

(** Gzip has a name in the instance; tracing switched on. *)
Lemma CompressMessage_trace_transparent_witness :
  exists s1 s2,
    @CompressMessage (fixture false) fixture_filter tt GRPC_COMPRESS_GZIP
      (mkState (mkMessage aaaa 0) []) = Done tt s1
    /\ @CompressMessage (with_trace true (fixture false)) fixture_filter tt
         GRPC_COMPRESS_GZIP (mkState (mkMessage aaaa 0) []) = Done tt s2
    /\ st_message s1 = st_message s2
    /\ calls_of (st_events s1) = calls_of (st_events s2).
Proof.
  apply (@CompressMessage_trace_transparent (fixture false) true
           fixture_filter GRPC_COMPRESS_GZIP (mkState (mkMessage aaaa 0) [])).
  discriminate.
Defined.

(** ** The decompress loop *)

(** The loop is the pipe mapper over [DecompressMessage] with the limit of
    the call. *)
Lemma DecompressLoop_TakeAndRun_unfold {env : Collaborators}
  (filter : CompressionFilter) (ctx : grpc_call_context)
  (algorithm : grpc_compression_algorithm) :
  DecompressLoop_TakeAndRun filter ctx algorithm
  = PipeMapper_TakeAndRun
      (fun message =>
         DecompressMessage filter message algorithm
           (effective_max_recv_size filter ctx)).
Proof.
  unfold DecompressLoop_TakeAndRun, effective_max_recv_size,
    per_call_max_recv_size.
  destruct (GetFromCallContext ctx
              (message_size_service_config_parser_index_ filter))
    as [limits |]; [| destruct (max_recv_size_ filter); reflexivity].
  destruct (max_recv_size limits) as [y |];
    destruct (max_recv_size_ filter) as [x |];
    cbn [has_value value_or andb orb negb min_present]; try reflexivity.
  destruct (N.ltb_spec y x).
  - rewrite N.min_r by lia. reflexivity.
  - rewrite N.min_l by lia. reflexivity.
Qed.

(** One step of the pump over [DecompressMessage]. *)
Lemma decompress_pump_step {env : Collaborators}
  (filter : CompressionFilter) (algorithm : grpc_compression_algorithm)
  (max : option N) (m : Message) (rest : list Message) (events : list event) :
  PipeMapper_TakeAndRun
    (fun message => DecompressMessage filter message algorithm max)
    (m :: rest) events
  = match DecompressMessage filter tt algorithm max (mkState m events) with
    | Aborted s => mkPump [] PumpAborted (st_events s)
    | Done (StatusOr_error status) s =>
        mkPump [] (PumpFailed status) (st_events s)
    | Done (StatusOr_ok _) s =>
        let r :=
          PipeMapper_TakeAndRun
            (fun message => DecompressMessage filter message algorithm max)
            rest (st_events s) in
        mkPump (st_message s :: forwarded r) (pump_status r) (pump_events r)
    end.
Proof. reflexivity. Qed.

(** What every run of the pump over [DecompressMessage] satisfies. *)
Lemma decompress_pump_facts {env : Collaborators}
  (filter : CompressionFilter) (algorithm : grpc_compression_algorithm)
  (max : option N) (pipe : list Message) :
  forall events,
    let r :=
      PipeMapper_TakeAndRun
        (fun message => DecompressMessage filter message algorithm max)
        pipe events in
    pump_status r <> PumpAborted
    /\ (forall status,
          pump_status r = PumpFailed status ->
          (code status = kResourceExhausted /\ max <> None)
          \/ (code status = kInternal /\ enable_decompression_ filter = true))
    /\ (exists delta,
          pump_events r = events ++ delta
          /\ (enable_decompression_ filter = false -> calls_of delta = []))
    /\ (enable_decompression_ filter = false ->
        forwarded r = firstn (List.length (forwarded r)) pipe)
    /\ (pump_status r = PumpOk ->
        List.length (forwarded r) = List.length pipe).
Proof.
  induction pipe as [| m rest IH]; intros events; cbv zeta.
  - cbn. split; [discriminate |]. split; [discriminate |].
    split; [exists []; split; [symmetry; apply app_nil_r | reflexivity] |].
    split; reflexivity.
  - rewrite decompress_pump_step.
    destruct (DecompressMessage_cases filter algorithm max (mkState m events))
      as [log [Hlog Hrun]].
    rewrite Hrun. cbn [st_message st_events].
    destruct (exceeds max m) eqn:Hex.
    + cbn [forwarded pump_status pump_events st_events List.length firstn].
      split; [discriminate |]. split.
      * intros status Hst. injection Hst as <-. left.
        split; [reflexivity |]. destruct max; discriminate.
      * split; [exists log; split;
                  [reflexivity | intros _; apply calls_of_logs; exact Hlog] |].
        split; [reflexivity | discriminate].
    + destruct (enable_decompression_ filter) eqn:Hen; cbn [negb orb];
        [destruct (has_flag (flags m) GRPC_WRITE_INTERNAL_COMPRESS);
           cbn [negb];
           [destruct (fst (grpc_msg_decompress algorithm (payload m)) =? 0) |]
        |].
      * cbn [forwarded pump_status pump_events st_events].
        split; [discriminate |]. split.
        -- intros status Hst. injection Hst as <-. right.
           split; reflexivity.
        -- split; [eexists; split; [reflexivity | discriminate] |].
           split; discriminate.
      * cbv zeta. cbn [st_events st_message].
        destruct (IH (events ++ log ++ [EvDecompress algorithm (payload m)]))
          as [Hab [Hfail [[delta [Hev _]] [_ Hlen]]]].
        cbn [forwarded pump_status pump_events]. split; [exact Hab |].
        split; [exact Hfail |]. split.
        -- eexists. split; [| discriminate]. rewrite Hev, <- !app_assoc.
           reflexivity.
        -- split; [discriminate |]. intros Hok. cbn [List.length]. f_equal.
           exact (Hlen Hok).
      * cbv zeta. cbn [st_events st_message].
        destruct (IH (events ++ log))
          as [Hab [Hfail [[delta [Hev _]] [_ Hlen]]]].
        cbn [forwarded pump_status pump_events]. split; [exact Hab |].
        split; [exact Hfail |]. split.
        -- eexists. split; [| discriminate]. rewrite Hev, <- !app_assoc.
           reflexivity.
        -- split; [discriminate |]. intros Hok. cbn [List.length]. f_equal.
           exact (Hlen Hok).
      * cbv zeta. cbn [st_events st_message].
        destruct (IH (events ++ log))
          as [Hab [Hfail [[delta [Hev Hcalls]] [Hpre Hlen]]]].
        cbn [forwarded pump_status pump_events]. split; [exact Hab |].
        split; [exact Hfail |]. split.
        -- exists (log ++ delta). split;
             [rewrite Hev, <- !app_assoc; reflexivity |].
           intros _. rewrite calls_of_app, (calls_of_logs log Hlog).
           apply Hcalls. reflexivity.
        -- split.
           ++ intros _. cbn [List.length firstn]. f_equal.
              apply Hpre. reflexivity.
           ++ intros Hok. cbn [List.length]. f_equal. exact (Hlen Hok).
Qed.

(** X6.  A call with no limit, neither on the channel nor in the service
    config, never fails for size: the decompress loop does not stop at an
    assertion, and when it fails the status is the internal error of a failed
    decompression. *)
Theorem DecompressLoop_unbounded {env : Collaborators}
  (filter : CompressionFilter) (ctx : grpc_call_context)
  (algorithm : grpc_compression_algorithm)
  (pipe : list Message) (events : list event) :
  max_recv_size_ filter = None ->
  per_call_max_recv_size filter ctx = None ->
  let r := DecompressLoop_TakeAndRun filter ctx algorithm pipe events in
  pump_status r <> PumpAborted
  /\ forall status,
       pump_status r = PumpFailed status ->
       code status = kInternal /\ enable_decompression_ filter = true.
Proof.
  intros Hchannel Hcall. cbv zeta. rewrite DecompressLoop_TakeAndRun_unfold.
  unfold effective_max_recv_size. rewrite Hchannel, Hcall. cbn [min_present].
  destruct (decompress_pump_facts filter algorithm None pipe events)
    as [Hab [Hfail _]].
  split; [exact Hab |]. intros status Hst.
  destruct (Hfail status Hst) as [[_ Habs] | Hint];
    [contradiction | exact Hint].
Qed.

(** A filter without a limit, in a call whose context has no limits: the
    flagged message does not decompress, and the failure is internal. *)
Lemma DecompressLoop_unbounded_witness :
  exists status,
    pump_status
      (@DecompressLoop_TakeAndRun (fixture true) fixture_filter
         (fun _ => None) GRPC_COMPRESS_GZIP
         [mkMessage abcd GRPC_WRITE_INTERNAL_COMPRESS] [])
    = PumpFailed status
    /\ code status = kInternal.
Proof.
  eexists. split; [reflexivity |].
  exact (proj1
    (proj2 (@DecompressLoop_unbounded (fixture true) fixture_filter
              (fun _ => None) GRPC_COMPRESS_GZIP
              [mkMessage abcd GRPC_WRITE_INTERNAL_COMPRESS] []
              eq_refl eq_refl) _ eq_refl)).
Defined.



(** The message and the result of [DecompressMessage] do not depend on the
    events before the call. *)
Lemma decompress_succeeds_run {env : Collaborators}
  (filter : CompressionFilter) (algorithm : grpc_compression_algorithm)
  (max : option N) (m : Message) (events : list event) :
  (decompress_succeeds filter algorithm max m = true ->
   exists s',
     DecompressMessage filter tt algorithm max (mkState m events)
     = Done (StatusOr_ok tt) s')
  /\ (decompress_succeeds filter algorithm max m = false ->
      exists status s',
        DecompressMessage filter tt algorithm max (mkState m events)
        = Done (StatusOr_error status) s').
Proof.
  destruct (DecompressMessage_cases filter algorithm max (mkState m events))
    as [log [_ Hrun]].
  rewrite Hrun. cbn [st_message st_events]. unfold decompress_succeeds.
  destruct (exceeds max m); cbn [negb andb];
    [split; [discriminate | intros _; eexists _, _; reflexivity] |].
  destruct (negb (enable_decompression_ filter)
            || negb (has_flag (flags m) GRPC_WRITE_INTERNAL_COMPRESS));
    cbn [orb]; [split; [intros _; eexists; reflexivity | discriminate] |].
  destruct (fst (grpc_msg_decompress algorithm (payload m)) =? 0);
    cbn [negb];
    [split; [discriminate | intros _; eexists _, _; reflexivity]
    | split; [intros _; eexists; reflexivity | discriminate]].
Qed.

(** X8.  The decompress loop stops at the first message that fails.  When
    [DecompressMessage] succeeds on each message of [good] and fails on
    [bad], the loop over [good ++ bad :: rest] forwards one message for each
    message of [good], in order, each as [DecompressMessage] returns it, and
    ends with the failure; [bad] is not forwarded and [rest] is not
    looked at. *)
Theorem DecompressLoop_stops_at_first_failure {env : Collaborators}
  (filter : CompressionFilter) (ctx : grpc_call_context)
  (algorithm : grpc_compression_algorithm)
  (good : list Message) (bad : Message) (rest : list Message)
  (events : list event) :
  let max := effective_max_recv_size filter ctx in
  forallb (decompress_succeeds filter algorithm max) good = true ->
  decompress_succeeds filter algorithm max bad = false ->
  let r :=
    DecompressLoop_TakeAndRun filter ctx algorithm (good ++ bad :: rest)
      events in
  Forall2 (decompressed_by filter algorithm max) good (forwarded r)
  /\ (exists status, pump_status r = PumpFailed status)
  /\ r = DecompressLoop_TakeAndRun filter ctx algorithm (good ++ [bad]) events.
Proof.
  cbv zeta. rewrite DecompressLoop_TakeAndRun_unfold.
  set (max := effective_max_recv_size filter ctx).
  revert events. induction good as [| m good IH]; intros events Hgood Hbad.
  - cbn [app]. rewrite !decompress_pump_step.
    destruct (proj2 (decompress_succeeds_run filter algorithm max bad events)
                Hbad) as [status [s' Hrun]].
    rewrite Hrun. cbn [forwarded pump_status].
    split; [constructor |]. split; [exists status; reflexivity | reflexivity].
  - cbn [forallb] in Hgood. apply andb_true_iff in Hgood.
    destruct Hgood as [Hm Hgood]. cbn [app]. rewrite !decompress_pump_step.
    destruct (proj1 (decompress_succeeds_run filter algorithm max m events)
                Hm) as [s' Hrun].
    rewrite Hrun. cbv zeta.
    destruct (IH (st_events s') Hgood Hbad) as [Hfw [Hstatus Hsame]].
    cbn [forwarded pump_status]. split.
    + constructor; [| exact Hfw].
      exists events, (st_events s'). rewrite Hrun. destruct s'. reflexivity.
    + split; [exact Hstatus |]. rewrite Hsame. reflexivity.
Qed.

(** Two plain messages, then one over the limit of four bytes, then more. *)
Lemma DecompressLoop_stops_at_first_failure_witness :
  exists status,
    pump_status
      (@DecompressLoop_TakeAndRun (fixture false)
         (mkCompressionFilter (Some 4%N) 0%N GRPC_COMPRESS_NONE
            (mkAlgorithmSet 7) true true)
         (fun _ => None) GRPC_COMPRESS_GZIP
         ([mkMessage aaaa 0; mkMessage abcd 0]
          ++ mkMessage (aaaa ++ abcd) 0 :: [mkMessage abcd 0]) [])
    = PumpFailed status.
Proof.
  exact (proj1 (proj2
    (@DecompressLoop_stops_at_first_failure (fixture false)
       (mkCompressionFilter (Some 4%N) 0%N GRPC_COMPRESS_NONE
          (mkAlgorithmSet 7) true true)
       (fun _ => None) GRPC_COMPRESS_GZIP
       [mkMessage aaaa 0; mkMessage abcd 0] (mkMessage (aaaa ++ abcd) 0)
       [mkMessage abcd 0] [] eq_refl eq_refl))).
Defined.

(** ** The compress loop *)

(** With the algorithm none, or compression disabled in the filter, the pump
    over [CompressMessage] forwards the pipe as it is and only logs. *)
Lemma compress_pump_identity {env : Collaborators}
  (filter : CompressionFilter) (algorithm : grpc_compression_algorithm)
  (pipe : list Message) :
  algorithm = GRPC_COMPRESS_NONE \/ enable_compression_ filter = false ->
  forall events,
  exists delta,
    forallb is_log delta = true
    /\ PipeMapper_TakeAndRun (compress_with filter algorithm) pipe events
       = mkPump pipe PumpOk (events ++ delta).
Proof.
  intros Hoff.
  induction pipe as [| m rest IH]; intros events.
  - exists []. split; [reflexivity |]. cbn. rewrite app_nil_r. reflexivity.
  - assert (Hguard :
              (algorithm =? GRPC_COMPRESS_NONE)
              || negb (enable_compression_ filter)
              || has_flag (flags (st_message (mkState m events)))
                   (Z.lor GRPC_WRITE_NO_COMPRESS GRPC_WRITE_INTERNAL_COMPRESS)
              = true).
    { apply compress_guard_iff. tauto. }
    destruct (CompressMessage_returns_unchanged filter algorithm
                (mkState m events) Hguard) as [log [Hlog Hrun]].
    cbn [st_message st_events] in Hrun.
    destruct (IH (events ++ log)) as [delta [Hdelta Hrest]].
    exists (log ++ delta). split.
    + rewrite forallb_app, Hlog, Hdelta. reflexivity.
    + cbn [PipeMapper_TakeAndRun]. unfold compress_with at 1.
      unfold bind, ret. rewrite Hrun. cbv zeta. cbn [st_events st_message].
      rewrite Hrest. cbn [forwarded pump_status pump_events].
      rewrite app_assoc. reflexivity.
Qed.

(** The pump over [CompressMessage], for an algorithm that has a name
    whenever tracing is on: it ends normally, forwards the image of every
    message of the pipe under the compress operation, in order, and calls the
    compression routine once for each message the operation does not return
    at once, in order. *)
Lemma compress_pump_maps {env : Collaborators}
  (filter : CompressionFilter) (algorithm : grpc_compression_algorithm) :
  (grpc_compression_trace = true ->
   grpc_compression_algorithm_name algorithm <> None) ->
  forall pipe events,
    let r :=
      PipeMapper_TakeAndRun (compress_with filter algorithm) pipe events in
    pump_status r = PumpOk
    /\ forwarded r = map (compress_spec filter algorithm) pipe
    /\ calls_of (pump_events r)
       = calls_of events ++ flat_map (compress_spec_calls filter algorithm) pipe.
Proof.
  intros Hname.
  assert (Hassert : grpc_compression_trace
                    && negb (has_value
                               (grpc_compression_algorithm_name algorithm))
                    = false).
  { destruct grpc_compression_trace; [| reflexivity].
    specialize (Hname eq_refl).
    destruct (grpc_compression_algorithm_name algorithm);
      [reflexivity | contradiction]. }
  induction pipe as [| m rest IH]; intros events; cbv zeta.
  - cbn. rewrite app_nil_r. repeat split.
  - destruct (CompressMessage_cases filter algorithm (mkState m events))
      as [log1 [log2 [Hlog1 [Hlog2 Hrun]]]].
    cbn [st_message st_events] in Hrun.
    rewrite has_flag_lor, orb_assoc, Hassert in Hrun.
    cbn [PipeMapper_TakeAndRun].
    remember (PipeMapper_TakeAndRun (compress_with filter algorithm) rest)
      as pump_rest eqn:Hrest.
    unfold compress_with, bind, ret. rewrite Hrun.
    unfold compress_spec, compress_spec_calls. cbn [map flat_map].
    destruct ((algorithm =? GRPC_COMPRESS_NONE)
              || negb (enable_compression_ filter)
              || has_flag (flags m) GRPC_WRITE_NO_COMPRESS
              || has_flag (flags m) GRPC_WRITE_INTERNAL_COMPRESS);
      subst pump_rest; cbv zeta; cbn [st_message st_events].
    + destruct (IH (events ++ log1)) as [Hok [Hfw Hcalls]].
      cbn [forwarded pump_status pump_events]. split; [exact Hok |].
      split; [rewrite Hfw; reflexivity |].
      rewrite Hcalls, calls_of_app, (calls_of_logs log1 Hlog1), app_nil_r.
      reflexivity.
    + destruct (IH (events ++ log1
                    ++ EvCompress algorithm (payload m) :: log2))
        as [Hok [Hfw Hcalls]].
      cbn [forwarded pump_status pump_events]. split; [exact Hok |].
      split; [rewrite Hfw; reflexivity |].
      rewrite Hcalls, !calls_of_app, (calls_of_logs log1 Hlog1).
      cbn [calls_of List.filter is_log negb]. fold (calls_of log2).
      rewrite (calls_of_logs log2 Hlog2), <- app_assoc. reflexivity.
Qed.

(** C5.  [CompressLoop::TakeAndRun] takes the requested encoding out of the
    outgoing metadata and chooses it, or the default of the filter when the
    metadata holds none; it writes the enabled set as the accepted encodings
    whatever the choice; it writes the chosen algorithm as the encoding when
    the choice is not none and leaves that key alone when it is none; the
    rest of the metadata is kept.  The loop it returns maps [CompressMessage]
    with the chosen algorithm over the outgoing messages, in order: it never
    ends with an error status, and for a chosen algorithm that has a name
    whenever tracing is on (as none, deflate and gzip have) it ends normally
    having forwarded, for every message of the pipe and in order, the result
    of the compress operation of the design document with the chosen
    algorithm, and having called the compression routine with the chosen
    algorithm once for each message that operation does not return at
    once. *)
Theorem CompressLoop_TakeAndRun_negotiation {env : Collaborators}
  (filter : CompressionFilter) (md : grpc_metadata_batch) :
  let algorithm :=
    value_or (GrpcInternalEncodingRequest md)
      (default_compression_algorithm_ filter) in
  let md' := fst (CompressLoop_TakeAndRun filter md) in
  let loop := snd (CompressLoop_TakeAndRun filter md) in
  GrpcInternalEncodingRequest md' = None
  /\ GrpcAcceptEncodingMetadata md'
     = Some (enabled_compression_algorithms_ filter)
  /\ (algorithm <> GRPC_COMPRESS_NONE ->
      GrpcEncodingMetadata md' = Some algorithm)
  /\ (algorithm = GRPC_COMPRESS_NONE ->
      GrpcEncodingMetadata md' = GrpcEncodingMetadata md)
  /\ other_metadata md' = other_metadata md
  /\ loop = PipeMapper_TakeAndRun (compress_with filter algorithm)
  /\ (forall pipe events,
        Forall2 (compressed_by filter algorithm)
          (firstn (List.length (forwarded (loop pipe events))) pipe)
          (forwarded (loop pipe events))
        /\ (forall status, pump_status (loop pipe events) <> PumpFailed status)
        /\ (pump_status (loop pipe events) = PumpOk ->
            List.length (forwarded (loop pipe events)) = List.length pipe))
  /\ ((grpc_compression_trace = true ->
       grpc_compression_algorithm_name algorithm <> None) ->
      forall pipe events,
        pump_status (loop pipe events) = PumpOk
        /\ forwarded (loop pipe events)
           = map (compress_spec filter algorithm) pipe
        /\ calls_of (pump_events (loop pipe events))
           = calls_of events
             ++ flat_map (compress_spec_calls filter algorithm) pipe).
Proof.
  cbv zeta. unfold CompressLoop_TakeAndRun, Take_GrpcInternalEncodingRequest.
  cbn [fst snd].
  set (algorithm := value_or (GrpcInternalEncodingRequest md)
                      (default_compression_algorithm_ filter)).
  destruct (Z.eqb_spec algorithm GRPC_COMPRESS_NONE) as [Hnone | Hsome];
    cbn [negb Set_GrpcEncodingMetadata Set_GrpcAcceptEncodingMetadata
         GrpcInternalEncodingRequest GrpcAcceptEncodingMetadata
         GrpcEncodingMetadata other_metadata];
    (split; [reflexivity |]); (split; [reflexivity |]);
    (split; [intros H; first [reflexivity | contradiction] |]);
    (split; [intros H; first [reflexivity | contradiction] |]);
    (split; [reflexivity |]); (split; [reflexivity |]);
    (split; [intros pipe events; apply compress_pump_forwards |]);
    intros Hname pipe events; apply (compress_pump_maps filter algorithm Hname).
Qed.

(** Gzip requested for two messages, with tracing on: the four equal bytes go
    out compressed and flagged, the four distinct ones as they are, and the
    routine was called for both. *)
Lemma CompressLoop_TakeAndRun_negotiation_witness :
  let run :=
    @CompressLoop_TakeAndRun (fixture true)
      (mkCompressionFilter None 0%N GRPC_COMPRESS_NONE (mkAlgorithmSet 5)
         true true)
      (mkMetadata (Some GRPC_COMPRESS_GZIP) None None [])
      in
  GrpcEncodingMetadata (fst run) = Some GRPC_COMPRESS_GZIP
  /\ pump_status (snd run [mkMessage aaaa 0; mkMessage abcd 0] []) = PumpOk
  /\ forwarded (snd run [mkMessage aaaa 0; mkMessage abcd 0] [])
     = [mkMessage [Byte.x04; Byte.x61] GRPC_WRITE_INTERNAL_COMPRESS;
        mkMessage abcd 0]
  /\ calls_of (pump_events (snd run [mkMessage aaaa 0; mkMessage abcd 0] []))
     = [EvCompress GRPC_COMPRESS_GZIP aaaa; EvCompress GRPC_COMPRESS_GZIP abcd].
Proof.
  cbv zeta.
  destruct (@CompressLoop_TakeAndRun_negotiation (fixture true)
              (mkCompressionFilter None 0%N GRPC_COMPRESS_NONE
                 (mkAlgorithmSet 5) true true)
              (mkMetadata (Some GRPC_COMPRESS_GZIP) None None []))
    as [_ [_ [Hannounce [_ [_ [_ [_ Hmaps]]]]]]].
  split; [apply Hannounce; discriminate |].
  assert (Hname : @grpc_compression_trace (fixture true) = true ->
                  @grpc_compression_algorithm_name (fixture true)
                    GRPC_COMPRESS_GZIP <> None)
    by (intros _; discriminate).
  exact (Hmaps Hname [mkMessage aaaa 0; mkMessage abcd 0] []).
Defined.

(** X9.  With compression disabled in the filter, the negotiation still
    announces the chosen algorithm in the outgoing metadata when it is not
    none, yet the loop forwards every message as it is: no call of the
    compression routine, no flag set, no failure. *)
Theorem CompressLoop_disabled_still_announces {env : Collaborators}
  (filter : CompressionFilter) (md : grpc_metadata_batch)
  (pipe : list Message) (events : list event) :
  enable_compression_ filter = false ->
  let algorithm :=
    value_or (GrpcInternalEncodingRequest md)
      (default_compression_algorithm_ filter) in
  let run := CompressLoop_TakeAndRun filter md in
  (algorithm <> GRPC_COMPRESS_NONE ->
   GrpcEncodingMetadata (fst run) = Some algorithm)
  /\ exists delta,
       forallb is_log delta = true
       /\ snd run pipe events = mkPump pipe PumpOk (events ++ delta).
Proof.
  intros Hoff. cbv zeta.
  unfold CompressLoop_TakeAndRun, Take_GrpcInternalEncodingRequest.
  cbn [fst snd]. split.
  - intros Halg. apply Z.eqb_neq in Halg. rewrite Halg. reflexivity.
  - apply (compress_pump_identity filter _ pipe). right. exact Hoff.
Qed.

(** Gzip requested from a filter with compression switched off. *)
Lemma CompressLoop_disabled_still_announces_witness :
  GrpcEncodingMetadata
    (fst (@CompressLoop_TakeAndRun (fixture false)
            (mkCompressionFilter None 0%N GRPC_COMPRESS_NONE
               (mkAlgorithmSet 7) false true)
            (mkMetadata (Some GRPC_COMPRESS_GZIP) None None [])))
  = Some GRPC_COMPRESS_GZIP.
Proof.
  destruct (@CompressLoop_disabled_still_announces (fixture false)
              (mkCompressionFilter None 0%N GRPC_COMPRESS_NONE
                 (mkAlgorithmSet 7) false true)
              (mkMetadata (Some GRPC_COMPRESS_GZIP) None None [])
              [mkMessage aaaa 0] [] eq_refl) as [Hannounce _].
  apply Hannounce. discriminate.
Defined.

(** X10.  Construction and negotiation together: when the configured default
    algorithm is not enabled and the outgoing metadata requests no encoding,
    the filter built from the channel arguments advertises the enabled set,
    announces no encoding (the key is left as it was) and forwards every
    outgoing message as it is. *)
Theorem disabled_default_sends_uncompressed {env : Collaborators}
  (args : ChannelArgs) (md : grpc_metadata_batch)
  (pipe : list Message) (events : list event) :
  IsSet (enabled_compression_algorithms args)
    (value_or (default_compression_algorithm args) GRPC_COMPRESS_NONE)
  = false ->
  GrpcInternalEncodingRequest md = None ->
  let filter := fst (CompressionFilter_new args) in
  let run := CompressLoop_TakeAndRun filter md in
  GrpcAcceptEncodingMetadata (fst run)
  = Some (enabled_compression_algorithms args)
  /\ GrpcEncodingMetadata (fst run) = GrpcEncodingMetadata md
  /\ exists delta,
       forallb is_log delta = true
       /\ snd run pipe events = mkPump pipe PumpOk (events ++ delta).
Proof.
  intros Hset Hreq. cbv zeta.
  assert (Hdefault : default_compression_algorithm_
                       (fst (CompressionFilter_new args))
                     = GRPC_COMPRESS_NONE).
  { unfold CompressionFilter_new.
    cbn [enabled_compression_algorithms_ default_compression_algorithm_].
    unfold CompressionAlgorithmSet_FromChannelArgs,
      DefaultCompressionAlgorithmFromChannelArgs.
    rewrite Hset. reflexivity. }
  assert (Henabled : enabled_compression_algorithms_
                       (fst (CompressionFilter_new args))
                     = enabled_compression_algorithms args).
  { unfold CompressionFilter_new.
    cbn [enabled_compression_algorithms_ default_compression_algorithm_].
    unfold CompressionAlgorithmSet_FromChannelArgs,
      DefaultCompressionAlgorithmFromChannelArgs.
    rewrite Hset. reflexivity. }
  unfold CompressLoop_TakeAndRun, Take_GrpcInternalEncodingRequest.
  rewrite Hreq, Hdefault, Henabled.
  cbn [fst snd value_or Z.eqb GRPC_COMPRESS_NONE negb
       Set_GrpcAcceptEncodingMetadata GrpcAcceptEncodingMetadata
       GrpcEncodingMetadata].
  split; [reflexivity |]. split; [reflexivity |].
  apply (compress_pump_identity (fst (CompressionFilter_new args)) _ pipe).
  left. reflexivity.
Qed.

(** Deflate configured, only gzip and none enabled. *)
Lemma disabled_default_sends_uncompressed_witness :
  exists delta,
    forallb is_log delta = true
    /\ snd (@CompressLoop_TakeAndRun (fixture true)
              (fst (@CompressionFilter_new (fixture true)
                      (mkChannelArgs None (Some GRPC_COMPRESS_DEFLATE)
                         (mkAlgorithmSet 5) None None)))
              (mkMetadata None None None []))
         [mkMessage aaaa 0] []
       = mkPump [mkMessage aaaa 0] PumpOk ([] ++ delta).
Proof.
  exact (proj2 (proj2
    (@disabled_default_sends_uncompressed (fixture true)
       (mkChannelArgs None (Some GRPC_COMPRESS_DEFLATE) (mkAlgorithmSet 5)
          None None)
       (mkMetadata None None None []) [mkMessage aaaa 0] []
       eq_refl eq_refl))).
Defined.

(** ** The call promises *)

(** What [CompressLoop::TakeAndRun] leaves in the metadata goes with what its
    loop does to the messages. *)
Lemma CompressLoop_TakeAndRun_consistent {env : Collaborators}
  (filter : CompressionFilter) (md : grpc_metadata_batch) :
  let run := CompressLoop_TakeAndRun filter md in
  GrpcInternalEncodingRequest (fst run) = None
  /\ GrpcAcceptEncodingMetadata (fst run)
     = Some (enabled_compression_algorithms_ filter)
  /\ ((exists algorithm,
         algorithm <> GRPC_COMPRESS_NONE
         /\ GrpcEncodingMetadata (fst run) = Some algorithm
         /\ snd run = PipeMapper_TakeAndRun (compress_with filter algorithm))
      \/ (GrpcEncodingMetadata (fst run) = GrpcEncodingMetadata md
          /\ forall pipe events,
             exists delta,
               forallb is_log delta = true
               /\ snd run pipe events = mkPump pipe PumpOk (events ++ delta))).
Proof.
  cbv zeta. unfold CompressLoop_TakeAndRun, Take_GrpcInternalEncodingRequest.
  cbn [fst snd].
  set (algorithm := value_or (GrpcInternalEncodingRequest md)
                      (default_compression_algorithm_ filter)).
  destruct (Z.eqb_spec algorithm GRPC_COMPRESS_NONE) as [Hnone | Hsome];
    cbn [negb Set_GrpcEncodingMetadata Set_GrpcAcceptEncodingMetadata
         GrpcInternalEncodingRequest GrpcAcceptEncodingMetadata
         GrpcEncodingMetadata];
    (split; [reflexivity |]); (split; [reflexivity |]).
  - right. split; [reflexivity |]. intros pipe events.
    apply (compress_pump_identity filter algorithm pipe). left. exact Hnone.
  - left. exists algorithm. split; [exact Hsome |]. split; reflexivity.
Qed.

(** X11.  The client announces what it sends.  The initial metadata that the
    rest of the chain receives no longer holds the internal encoding request
    and advertises the enabled set; and either it announces an algorithm
    other than none as the encoding and the outgoing loop maps
    [CompressMessage] with that algorithm over the messages, or the encoding
    key is as the application left it and the loop forwards every message as
    it is. *)
Theorem ClientCompressionFilter_announces_what_it_sends
  {env : Collaborators} (filter : CompressionFilter) (ctx : grpc_call_context)
  (md : grpc_metadata_batch) :
  let call := ClientCompressionFilter_MakeCallPromise filter ctx md in
  GrpcInternalEncodingRequest (client_initial_metadata call) = None
  /\ GrpcAcceptEncodingMetadata (client_initial_metadata call)
     = Some (enabled_compression_algorithms_ filter)
  /\ ((exists algorithm,
         algorithm <> GRPC_COMPRESS_NONE
         /\ GrpcEncodingMetadata (client_initial_metadata call)
            = Some algorithm
         /\ client_push call
            = PipeMapper_TakeAndRun (compress_with filter algorithm))
      \/ (GrpcEncodingMetadata (client_initial_metadata call)
          = GrpcEncodingMetadata md
          /\ forall pipe events,
             exists delta,
               forallb is_log delta = true
               /\ client_push call pipe events
                  = mkPump pipe PumpOk (events ++ delta))).
Proof.
  cbv zeta. unfold ClientCompressionFilter_MakeCallPromise.
  pose proof (CompressLoop_TakeAndRun_consistent filter md) as H.
  cbv zeta in H. destruct (CompressLoop_TakeAndRun filter md) as [md' loop].
  cbn [fst snd] in H. cbn [client_initial_metadata client_push]. exact H.
Qed.

(** X12.  The server announces what it sends.  When the rest of the chain
    sets its initial metadata, what the filter sets on the latch of the real
    sink is that metadata without the internal encoding request and with the
    enabled set advertised; and either it announces an algorithm other than
    none and the outgoing loop maps [CompressMessage] with it, or the encoding
    key is as the application left it and the loop forwards every message as
    it is.  The initial metadata of the client plays no part in it: the
    sending leg is the same for every client metadata. *)
Theorem ServerCompressionFilter_announces_what_it_sends
  {env : Collaborators} (filter : CompressionFilter) (ctx : grpc_call_context)
  (client_md md : grpc_metadata_batch) :
  (forall client_md',
     server_push
       (ServerCompressionFilter_MakeCallPromise filter ctx client_md')
     = server_push
         (ServerCompressionFilter_MakeCallPromise filter ctx client_md))
  /\ exists sent loop,
    server_push (ServerCompressionFilter_MakeCallPromise filter ctx client_md)
      (Some md)
    = Some (sent, loop)
    /\ GrpcInternalEncodingRequest sent = None
    /\ GrpcAcceptEncodingMetadata sent
       = Some (enabled_compression_algorithms_ filter)
    /\ other_metadata sent = other_metadata md
    /\ ((exists algorithm,
           algorithm <> GRPC_COMPRESS_NONE
           /\ GrpcEncodingMetadata sent = Some algorithm
           /\ loop = PipeMapper_TakeAndRun (compress_with filter algorithm))
        \/ (GrpcEncodingMetadata sent = GrpcEncodingMetadata md
            /\ forall pipe events,
               exists delta,
                 forallb is_log delta = true
                 /\ loop pipe events = mkPump pipe PumpOk (events ++ delta))).
Proof.
  split; [intros client_md'; reflexivity |].
  unfold ServerCompressionFilter_MakeCallPromise. cbn [server_push].
  pose proof (CompressLoop_TakeAndRun_consistent filter md) as H.
  cbv zeta in H.
  assert (Hother : other_metadata (fst (CompressLoop_TakeAndRun filter md))
                   = other_metadata md).
  { unfold CompressLoop_TakeAndRun, Take_GrpcInternalEncodingRequest.
    cbn [fst].
    destruct (negb (value_or (GrpcInternalEncodingRequest md)
                      (default_compression_algorithm_ filter)
                    =? GRPC_COMPRESS_NONE)); reflexivity. }
  destruct (CompressLoop_TakeAndRun filter md) as [md' loop].
  cbn [fst snd] in H, Hother. exists md', loop.
  split; [reflexivity |]. destruct H as [Hreq [Hacc Hrest]].
  split; [exact Hreq |]. split; [exact Hacc |]. split; [exact Hother |].
  exact Hrest.
Qed.





(** * Properties of the xDS stateful session filter *)

Lemma scopes_after_app {Any : Type} (a b : list (Xds.call Any))
  (open : list string) :
  Xds.scopes_after (a ++ b) open
  = match Xds.scopes_after a open with
    | Some open' => Xds.scopes_after b open'
    | None => None
    end.
Proof.
  revert open. induction a as [| c a IH]; intros open; [reflexivity |].
  destruct c; cbn [app Xds.scopes_after]; try apply IH.
  destruct open; [reflexivity | apply IH].
Qed.

Lemma errors_added_app {Any : Type} (a b : list (Xds.call Any))
  (open : list string) :
  Xds.scopes_after a open = Some open ->
  Xds.errors_added (a ++ b) open
  = Xds.errors_added a open ++ Xds.errors_added b open.
Proof.
  enough (H : forall open open',
             Xds.scopes_after a open = Some open' ->
             Xds.errors_added (a ++ b) open
             = Xds.errors_added a open ++ Xds.errors_added b open').
  { intros Hbal. apply H. exact Hbal. }
  clear open. induction a as [| c a IH]; intros open open' Hbal.
  - cbn in Hbal. injection Hbal as <-. reflexivity.
  - destruct c; cbn [app Xds.scopes_after Xds.errors_added] in *.
    + apply (IH _ _ Hbal).
    + destruct open; [discriminate Hbal |]. apply (IH _ _ Hbal).
    + rewrite (IH _ _ Hbal). reflexivity.
    + rewrite (IH _ _ Hbal). apply app_assoc.
    + apply (IH _ _ Hbal).
    + rewrite (IH _ _ Hbal). apply app_assoc.
Qed.

(** The fields an extension holds open are opened outermost first, and
    closed again when it is destroyed. *)
Lemma scopes_after_push {Any : Type} (fields : list string)
  (open : list string) :
  Xds.scopes_after (map (@Xds.PushField Any) fields) open
  = Some (rev fields ++ open).
Proof.
  revert open. induction fields as [| f fields IH]; intros open;
    [reflexivity |].
  cbn [map Xds.scopes_after rev]. rewrite IH, <- app_assoc. reflexivity.
Qed.

Lemma scopes_after_pop {Any : Type} (inner open : list string) :
  Xds.scopes_after (repeat (@Xds.PopField Any) (List.length inner))
    (inner ++ open)
  = Some open.
Proof.
  induction inner as [| f inner IH]; [reflexivity |].
  cbn [List.length repeat app Xds.scopes_after]. exact IH.
Qed.

Lemma errors_added_push {Any : Type} (fields : list string)
  (rest : list (Xds.call Any)) (open : list string) :
  Xds.errors_added (map (@Xds.PushField Any) fields ++ rest) open
  = Xds.errors_added rest (rev fields ++ open).
Proof.
  revert open. induction fields as [| f fields IH]; intros open;
    [reflexivity |].
  cbn [map app Xds.errors_added rev]. rewrite IH, <- app_assoc. reflexivity.
Qed.

Lemma errors_added_pop {Any : Type} (n : nat) (open : list string) :
  Xds.errors_added (repeat (@Xds.PopField Any) n) open = [].
Proof.
  revert open. induction n as [| n IH]; intros open; [reflexivity |].
  cbn [repeat Xds.errors_added]. apply IH.
Qed.

(** What a [ScopedField] around a block and an extracted extension do to
    the value and to the calls. *)
Lemma scoped_result {decoder : Xds.Decoder} {A : Type} (name : string)
  (body : Xds.V A) :
  fst (Xds.scoped name body) = fst body
  /\ snd (Xds.scoped name body)
     = Xds.PushField name :: snd body ++ [Xds.PopField].
Proof. destruct body as [a calls]. split; reflexivity. Qed.

Lemma with_extension_result {decoder : Xds.Decoder} {A : Type}
  (typed_config : option Xds.Any) (none : Xds.V A)
  (body : Xds.XdsExtension -> Xds.V A) :
  fst (Xds.with_extension typed_config none body)
  = match fst (Xds.ExtractXdsExtension typed_config) with
    | None => fst none
    | Some extension => fst (body extension)
    end
  /\ snd (Xds.with_extension typed_config none body)
     = Xds.Call_ExtractXdsExtension typed_config
         (snd (Xds.ExtractXdsExtension typed_config))
       :: match fst (Xds.ExtractXdsExtension typed_config) with
          | None => snd none
          | Some extension =>
              map Xds.PushField (Xds.validation_fields extension)
              ++ snd (body extension)
              ++ Xds.Destroy_XdsExtension
                 :: repeat Xds.PopField
                      (List.length (Xds.validation_fields extension))
          end.
Proof.
  unfold Xds.with_extension.
  destruct (fst (Xds.ExtractXdsExtension typed_config)) as [extension |].
  - destruct (body extension) as [a calls]. cbn. rewrite app_nil_r.
    split; reflexivity.
  - destruct none as [a calls]. split; reflexivity.
Qed.

Lemma scoped_scopes {decoder : Xds.Decoder} {A : Type} (name : string)
  (body : Xds.V A) (open : list string) :
  Xds.scopes_after (snd body) (name :: open) = Some (name :: open) ->
  Xds.scopes_after (snd (Xds.scoped name body)) open = Some open.
Proof.
  intros Hbody. rewrite (proj2 (scoped_result name body)).
  cbn [Xds.scopes_after]. rewrite scopes_after_app, Hbody. reflexivity.
Qed.

Lemma scoped_errors {decoder : Xds.Decoder} {A : Type} (name : string)
  (body : Xds.V A) (open : list string) :
  Xds.scopes_after (snd body) (name :: open) = Some (name :: open) ->
  Xds.errors_added (snd (Xds.scoped name body)) open
  = Xds.errors_added (snd body) (name :: open).
Proof.
  intros Hbody. rewrite (proj2 (scoped_result name body)).
  cbn [Xds.errors_added]. rewrite (errors_added_app _ _ _ Hbody).
  apply app_nil_r.
Qed.

Lemma with_extension_scopes {decoder : Xds.Decoder} {A : Type}
  (typed_config : option Xds.Any) (none : Xds.V A)
  (body : Xds.XdsExtension -> Xds.V A) (open : list string) :
  Xds.scopes_after (snd none) open = Some open ->
  (forall extension inner,
     Xds.scopes_after (snd (body extension)) inner = Some inner) ->
  Xds.scopes_after (snd (Xds.with_extension typed_config none body)) open
  = Some open.
Proof.
  intros Hnone Hbody. rewrite (proj2 (with_extension_result _ _ _)).
  cbn [Xds.scopes_after].
  destruct (fst (Xds.ExtractXdsExtension typed_config)) as [extension |];
    [| exact Hnone].
  rewrite scopes_after_app, scopes_after_push, scopes_after_app, Hbody.
  cbn [Xds.scopes_after].
  rewrite <- (length_rev (Xds.validation_fields extension)).
  apply scopes_after_pop.
Qed.

Lemma with_extension_errors {decoder : Xds.Decoder} {A : Type}
  (typed_config : option Xds.Any) (none : Xds.V A)
  (body : Xds.XdsExtension -> Xds.V A) (open : list string) :
  (forall extension inner,
     Xds.scopes_after (snd (body extension)) inner = Some inner) ->
  Xds.errors_added (snd (Xds.with_extension typed_config none body)) open
  = Xds.placed (rev open) (snd (Xds.ExtractXdsExtension typed_config))
    ++ match fst (Xds.ExtractXdsExtension typed_config) with
       | None => Xds.errors_added (snd none) open
       | Some extension =>
           Xds.errors_added (snd (body extension))
             (rev (Xds.validation_fields extension) ++ open)
       end.
Proof.
  intros Hbody. rewrite (proj2 (with_extension_result _ _ _)).
  cbn [Xds.errors_added]. apply (f_equal (app _)).
  destruct (fst (Xds.ExtractXdsExtension typed_config)) as [extension |];
    [| reflexivity].
  rewrite errors_added_push, (errors_added_app _ _ _ (Hbody _ _)).
  cbn [Xds.errors_added]. rewrite errors_added_pop. apply app_nil_r.
Qed.

(** The blocks of the translation close the scopes they open. *)
Ltac xds_balanced :=
  repeat first
    [ reflexivity
    | apply scoped_scopes
    | apply with_extension_scopes; [| intros ? ?]
    | match goal with
      | |- context [match ?x with _ => _ end] => destruct x
      | |- context [if ?c then _ else _] => destruct c
      end ].

(** [ValidateStatefulSession] closes the scopes it opens. *)
Lemma ValidateStatefulSession_scopes {decoder : Xds.Decoder}
  (stateful_session : Xds.StatefulSession Xds.Any) (open : list string) :
  Xds.scopes_after (snd (Xds.ValidateStatefulSession stateful_session)) open
  = Some open.
Proof. unfold Xds.ValidateStatefulSession. xds_balanced. Qed.

(** X16.  [GenerateFilterConfig] returns nothing exactly when the value of
    the extension is not serialized bytes or the bytes do not parse; it then
    adds the one error "could not parse stateful session filter config", in
    the scope it was called in.  When it returns a configuration, the name
    is that of the [StatefulSession] message and the configuration is the
    JSON object that [ValidateStatefulSession] built, with the errors that
    validation added: a configuration is returned whether or not validation
    found errors. *)
Theorem GenerateFilterConfig_result {decoder : Xds.Decoder}
  (extension : Xds.XdsExtension) (open : list string) :
  let result := fst (Xds.GenerateFilterConfig extension) in
  let calls := snd (Xds.GenerateFilterConfig extension) in
  (result = None
   <-> ~ exists bytes stateful_session,
           Xds.value extension = inl bytes
           /\ Xds.StatefulSession_parse bytes = Some stateful_session)
  /\ (result = None ->
      Xds.errors_added calls open
      = [(rev open, "could not parse stateful session filter config")])
  /\ (forall bytes stateful_session,
        Xds.value extension = inl bytes ->
        Xds.StatefulSession_parse bytes = Some stateful_session ->
        result
        = Some (Xds.mkFilterConfig Xds.ConfigProtoName
                  (Xds.Json_object
                     (fst (Xds.ValidateStatefulSession stateful_session))))
        /\ calls = snd (Xds.ValidateStatefulSession stateful_session)).
Proof.
  cbv zeta. unfold Xds.GenerateFilterConfig.
  destruct (Xds.value extension) as [bytes | json].
  - destruct (Xds.StatefulSession_parse bytes) as [ss |] eqn:Hparse.
    + run_calls.
      destruct (Xds.ValidateStatefulSession ss) as [o calls] eqn:Hv.
      cbn [fst snd]. rewrite app_nil_r. split; [split |].
      * discriminate.
      * intros Hno. exfalso. apply Hno. exists bytes, ss.
        split; [reflexivity | exact Hparse].
      * split; [discriminate |]. intros bytes' ss' Hb Hp.
        injection Hb as <-. rewrite Hparse in Hp. injection Hp as <-.
        rewrite Hv. split; reflexivity.
    + cbn. split; [split |].
      * intros _ [bytes' [ss' [Hb Hp]]]. injection Hb as <-. congruence.
      * reflexivity.
      * split; [reflexivity |]. intros bytes' ss' Hb Hp.
        injection Hb as <-. congruence.
  - cbn. split; [split |].
    + intros _ [bytes' [ss' [Hb _]]]. discriminate Hb.
    + reflexivity.
    + split; [reflexivity |]. intros bytes' ss' Hb. discriminate Hb.
Qed.

(** X17.  [GenerateFilterConfigOverride] returns nothing exactly when the
    value of the extension is not serialized bytes or the bytes do not parse,
    and then adds the one error "could not parse stateful session filter
    override config".  Once the bytes parse it always returns a
    configuration, named after the [StatefulSessionPerRoute] message.  When
    the override is disabled the configuration is the empty object and the
    errors object is not touched, whatever else the message holds.  When it
    is not disabled and holds no stateful session, the configuration is the
    empty object and "field not present" is added under
    [.stateful_session]; when it holds one, the configuration is what
    [ValidateStatefulSession] builds, its errors added under that scope. *)
Theorem GenerateFilterConfigOverride_result {decoder : Xds.Decoder}
  (extension : Xds.XdsExtension) (open : list string) :
  let result := fst (Xds.GenerateFilterConfigOverride extension) in
  let calls := snd (Xds.GenerateFilterConfigOverride extension) in
  (result = None
   <-> ~ exists bytes route,
           Xds.value extension = inl bytes
           /\ Xds.StatefulSessionPerRoute_parse bytes = Some route)
  /\ (result = None ->
      Xds.errors_added calls open
      = [(rev open,
          "could not parse stateful session filter override config")])
  /\ (forall bytes route,
        Xds.value extension = inl bytes ->
        Xds.StatefulSessionPerRoute_parse bytes = Some route ->
        exists o,
          result
          = Some (Xds.mkFilterConfig Xds.OverrideConfigProtoName
                    (Xds.Json_object o))
          /\ (Xds.StatefulSessionPerRoute_disabled route = true ->
              o = [] /\ calls = [])
          /\ (Xds.StatefulSessionPerRoute_disabled route = false ->
              match Xds.StatefulSessionPerRoute_stateful_session route with
              | None =>
                  o = []
                  /\ Xds.errors_added calls open
                     = [(rev (".stateful_session" :: open),
                         "field not present")]
              | Some stateful_session =>
                  o = fst (Xds.ValidateStatefulSession stateful_session)
                  /\ Xds.errors_added calls open
                     = Xds.errors_added
                         (snd (Xds.ValidateStatefulSession stateful_session))
                         (".stateful_session" :: open)
              end)).
Proof.
  cbv zeta. unfold Xds.GenerateFilterConfigOverride.
  destruct (Xds.value extension) as [bytes | json].
  - destruct (Xds.StatefulSessionPerRoute_parse bytes) as [route |] eqn:Hparse.
    + assert (Hsome :
                exists bytes' route',
                  @inl string Xds.Json bytes = inl bytes'
                  /\ Xds.StatefulSessionPerRoute_parse bytes' = Some route').
      { exists bytes, route. split; [reflexivity | exact Hparse]. }
      destruct (Xds.StatefulSessionPerRoute_disabled route) eqn:Hdis;
        cbn [negb].
      * cbn. split; [split; [discriminate | intros Hno; contradiction] |].
        split; [discriminate |]. intros bytes' route' Hb Hp.
        injection Hb as <-. rewrite Hparse in Hp. injection Hp as <-.
        exists []. split; [reflexivity |]. rewrite Hdis.
        split; [intros _; split; reflexivity | discriminate].
      * destruct (Xds.StatefulSessionPerRoute_stateful_session route)
          as [ss |] eqn:Hss.
        -- pose proof (ValidateStatefulSession_scopes ss
                         (".stateful_session" :: open)) as Hbal.
           run_calls.
           destruct (Xds.ValidateStatefulSession ss) as [o calls] eqn:Hv.
           cbn [fst snd app] in *.
           split; [split; [discriminate | intros Hno; contradiction] |].
           split; [discriminate |]. intros bytes' route' Hb Hp.
           injection Hb as <-. rewrite Hparse in Hp. injection Hp as <-.
           exists o. split; [reflexivity |]. rewrite Hdis, Hss, Hv.
           cbn [fst snd].
           split; [discriminate |]. intros _. split; [reflexivity |].
           cbn [Xds.errors_added]. rewrite app_nil_r.
           rewrite (errors_added_app calls _ _ Hbal). cbn. apply app_nil_r.
        -- cbn. split; [split; [discriminate | intros Hno; contradiction] |].
           split; [discriminate |]. intros bytes' route' Hb Hp.
           injection Hb as <-. rewrite Hparse in Hp. injection Hp as <-.
           exists []. split; [reflexivity |]. rewrite Hdis, Hss.
           split; [discriminate |]. intros _. split; reflexivity.
    + cbn. split; [split |].
      * intros _ [bytes' [route' [Hb Hp]]]. injection Hb as <-. congruence.
      * reflexivity.
      * split; [reflexivity |]. intros bytes' route' Hb Hp.
        injection Hb as <-. congruence.
  - cbn. split; [split |].
    + intros _ [bytes' [route' [Hb _]]]. discriminate Hb.
    + reflexivity.
    + split; [reflexivity |]. intros bytes' route' Hb. discriminate Hb.
Qed.

Lemma Object_get_erase (key k : string) (o : Xds.Object) :
  Xds.Object_get key (Xds.Object_erase k o)
  = if String.eqb k key then None else Xds.Object_get key o.
Proof.
  induction o as [| [k' v] o IH]; cbn [Xds.Object_erase Xds.Object_get].
  - destruct (String.eqb k key); reflexivity.
  - destruct (String.eqb_spec k' k) as [-> | Hne].
    + rewrite IH. destruct (String.eqb k key); reflexivity.
    + cbn [Xds.Object_get]. rewrite IH.
      destruct (String.eqb_spec k' key) as [-> | Hne'];
        [| reflexivity].
      destruct (String.eqb_spec k key) as [-> | _];
        [contradiction | reflexivity].
Qed.

(** Reading a key after an assignment. *)
Lemma Object_get_set (key k : string) (v : Xds.Json) (o : Xds.Object) :
  Xds.Object_get key (Xds.Object_set k v o)
  = if String.eqb k key then Some v else Xds.Object_get key o.
Proof.
  unfold Xds.Object_set. cbn [Xds.Object_get]. rewrite Object_get_erase.
  destruct (String.eqb k key); reflexivity.
Qed.

(** Paths of fields, for comparing errors. *)
Ltac paths :=
  cbn [rev app];
  rewrite ?rev_app_distr, ?rev_involutive, ?app_nil_r, <- ?app_assoc;
  cbn [rev app]; rewrite <- ?app_assoc; cbn [app]; reflexivity.

(** X18.  What [ValidateStatefulSession] returns and every error it leaves
    on the errors object, its own and those of the two helpers it hands the
    object to, each with the full path of fields it is reported under.
    Without a session state: the empty object and "field not present" under
    [.session_state].  Otherwise the errors start with those
    [ExtractXdsExtension] added, under [.session_state.typed_config].
    Without an extension nothing follows and the object is empty.  With an
    extension, what follows is reported inside the fields the extension
    holds open: "unsupported session state type" for another type; "could
    not parse session state config" for a value that is not serialized or
    does not parse; "field not present" under [.cookie] for a state without
    cookie; the object is empty in each of these cases.  For a cookie, the
    object has the key name with the name of the cookie, the key ttl exactly
    when the cookie has a ttl, the key path exactly when the path is not
    empty, and no other key; the errors are "field not present" under
    [.cookie.name] for an empty name, the name key being set all the same,
    and then those [ParseDuration] added, under [.cookie.ttl]. *)
Theorem ValidateStatefulSession_result {decoder : Xds.Decoder}
  (stateful_session : Xds.StatefulSession Xds.Any) (open : list string) :
  let o := fst (Xds.ValidateStatefulSession stateful_session) in
  let errors :=
    Xds.errors_added (snd (Xds.ValidateStatefulSession stateful_session))
      open in
  let path (fields : list string) := rev open ++ fields in
  match Xds.StatefulSession_session_state stateful_session with
  | None =>
      o = [] /\ errors = [(path [".session_state"], "field not present")]
  | Some typed_config =>
      let extracted :=
        Xds.placed (path [".session_state"; ".typed_config"])
          (snd (Xds.ExtractXdsExtension typed_config)) in
      match fst (Xds.ExtractXdsExtension typed_config) with
      | None => o = [] /\ errors = extracted
      | Some extension =>
          let inside (fields : list string) :=
            path ([".session_state"; ".typed_config"]
                  ++ Xds.validation_fields extension ++ fields) in
          (Xds.type extension
           <> ("envoy.extensions.http.stateful_session.cookie.v3"
               ++ ".CookieBasedSessionState")%string ->
           o = []
           /\ errors
              = extracted ++ [(inside [], "unsupported session state type")])
          /\ (Xds.type extension
              = ("envoy.extensions.http.stateful_session.cookie.v3"
                 ++ ".CookieBasedSessionState")%string ->
              match
                match Xds.value extension with
                | inl bytes =>
                    option_map Xds.CookieBasedSessionState_cookie
                      (Xds.CookieBasedSessionState_parse bytes)
                | inr _ => None
                end
              with
              | None =>
                  o = []
                  /\ errors
                     = extracted
                       ++ [(inside [],
                            "could not parse session state config")]
              | Some None =>
                  o = []
                  /\ errors
                     = extracted
                       ++ [(inside [".cookie"], "field not present")]
              | Some (Some cookie) =>
                  Xds.Object_get "name" o
                  = Some (Xds.Json_string (Xds.Cookie_name cookie))
                  /\ Xds.Object_get "ttl" o
                     = match Xds.Cookie_ttl cookie with
                       | Some duration =>
                           Some (Xds.Json_string
                                   (Xds.ToJsonString
                                      (fst (Xds.ParseDuration duration))))
                       | None => None
                       end
                  /\ Xds.Object_get "path" o
                     = (if String.eqb (Xds.Cookie_path cookie) "" then None
                        else Some (Xds.Json_string (Xds.Cookie_path cookie)))
                  /\ (forall key,
                        key <> "name" -> key <> "ttl" -> key <> "path" ->
                        Xds.Object_get key o = None)
                  /\ errors
                     = extracted
                       ++ (if String.eqb (Xds.Cookie_name cookie) ""
                           then [(inside [".cookie"; ".name"],
                                  "field not present")]
                           else [])
                       ++ match Xds.Cookie_ttl cookie with
                          | Some duration =>
                              Xds.placed (inside [".cookie"; ".ttl"])
                                (snd (Xds.ParseDuration duration))
                          | None => []
                          end
              end)
      end
  end.
Proof.
  cbv zeta. unfold Xds.ValidateStatefulSession.
  rewrite (proj1 (scoped_result _ _)), scoped_errors by xds_balanced.
  destruct (Xds.StatefulSession_session_state stateful_session) as [tc |];
    [| split; reflexivity].
  rewrite (proj1 (scoped_result _ _)), scoped_errors by xds_balanced.
  rewrite (proj1 (with_extension_result _ _ _)),
    with_extension_errors by (intros ? ?; xds_balanced).
  replace (rev (".typed_config" :: ".session_state" :: open))
    with (rev open ++ [".session_state"; ".typed_config"]) by paths.
  destruct (fst (Xds.ExtractXdsExtension tc)) as [ext |];
    [| split; [reflexivity | apply app_nil_r]].
  cbv beta.
  set (extracted := Xds.placed _ (snd (Xds.ExtractXdsExtension tc))).
  split.
  - intros Htype. apply String.eqb_neq in Htype. rewrite Htype.
    split; [reflexivity |]. apply (f_equal (app extracted)). cbn.
    apply (f_equal (fun fields => [(fields, _)])). paths.
  - intros Htype. apply String.eqb_eq in Htype. rewrite Htype. cbn [negb].
    destruct (Xds.value ext) as [bytes | json];
      [| split; [reflexivity |]; apply (f_equal (app extracted)); cbn;
         apply (f_equal (fun fields => [(fields, _)])); paths].
    destruct (Xds.CookieBasedSessionState_parse bytes) as [state |];
      cbn [option_map];
      [| split; [reflexivity |]; apply (f_equal (app extracted)); cbn;
         apply (f_equal (fun fields => [(fields, _)])); paths].
    destruct (Xds.CookieBasedSessionState_cookie state) as [cookie |];
      [| split; [reflexivity |]; apply (f_equal (app extracted)); cbn;
         apply (f_equal (fun fields => [(fields, _)])); paths].
    assert (Hkeys :
              forall key,
                key <> "name" -> key <> "ttl" -> key <> "path" ->
                String.eqb "name" key = false /\ String.eqb "ttl" key = false
                /\ String.eqb "path" key = false).
    { intros key H1 H2 H3. repeat split; apply String.eqb_neq; congruence. }
    run_calls.
    destruct (String.eqb (Xds.Cookie_name cookie) "");
      destruct (Xds.Cookie_ttl cookie) as [duration |];
      destruct (String.eqb (Xds.Cookie_path cookie) ""); cbn [fst snd negb];
      (split; [rewrite ?Object_get_set; reflexivity |]);
      (split; [rewrite ?Object_get_set; reflexivity |]);
      (split; [rewrite ?Object_get_set; reflexivity |]);
      (split;
       [intros key H1 H2 H3; destruct (Hkeys key H1 H2 H3) as [E1 [E2 E3]];
        rewrite ?Object_get_set, ?E1, ?E2, ?E3; reflexivity |]);
      apply (f_equal (app extracted));
      cbn [app Xds.errors_added tl];
      rewrite ?app_nil_r; paths.
Qed.

(** ** Runs of the translation on the instance *)

(** A session state with a named cookie: the three keys, no error. *)
Example xds_cookie_configuration :
  @Xds.GenerateFilterConfig Xds.fixture_decoder
    (Xds.mkExtension Xds.ConfigProtoName (inl "session") [])
  = (Some
       (Xds.mkFilterConfig Xds.ConfigProtoName
          (Xds.Json_object
             [("path", Xds.Json_string "/api");
              ("ttl", Xds.Json_string "3.000000000s");
              ("name", Xds.Json_string "sid")])),
     [Xds.PushField ".session_state"; Xds.PushField ".typed_config";
      Xds.Call_ExtractXdsExtension (Some "cookie") [];
      Xds.PushField ".value[cookie]"; Xds.PushField ".cookie";
      Xds.PushField ".ttl"; Xds.Call_ParseDuration (3, 0) []; Xds.PopField;
      Xds.PopField; Xds.Destroy_XdsExtension; Xds.PopField; Xds.PopField;
      Xds.PopField]).
Proof. reflexivity. Qed.

(** A message without session state: a configuration is returned, with the
    empty object and one error under [.session_state]. *)
Example xds_missing_session_state :
  let run :=
    @Xds.GenerateFilterConfig Xds.fixture_decoder
      (Xds.mkExtension Xds.ConfigProtoName (inl "empty") []) in
  fst run = Some (Xds.mkFilterConfig Xds.ConfigProtoName (Xds.Json_object []))
  /\ Xds.errors_added (snd run) []
     = [([".session_state"], "field not present")].
Proof. cbv zeta. split; reflexivity. Qed.

(** A session state without typed config: the one error is that of
    [ExtractXdsExtension], and a configuration is returned. *)
Example xds_missing_typed_config :
  let run :=
    @Xds.GenerateFilterConfig Xds.fixture_decoder
      (Xds.mkExtension Xds.ConfigProtoName (inl "untyped") []) in
  fst run = Some (Xds.mkFilterConfig Xds.ConfigProtoName (Xds.Json_object []))
  /\ Xds.errors_added (snd run) []
     = [([".session_state"; ".typed_config"], "field not present")].
Proof. cbv zeta. split; reflexivity. Qed.

(** A cookie without name and with a ttl that [ParseDuration] rejects,
    validated inside an outer field: the error of the filter and that of the
    helper, each under the fields open around it, those of the extension
    included; the name and the ttl are set all the same. *)
Example xds_cookie_errors :
  let run :=
    @Xds.GenerateFilterConfig Xds.fixture_decoder
      (Xds.mkExtension Xds.ConfigProtoName (inl "bad_session") []) in
  fst run
  = Some
      (Xds.mkFilterConfig Xds.ConfigProtoName
         (Xds.Json_object
            [("ttl", Xds.Json_string "0.000000000s");
             ("name", Xds.Json_string "")]))
  /\ Xds.errors_added (snd run) ["http_filters[0]"]
     = [(["http_filters[0]"; ".session_state"; ".typed_config";
          ".value[bad_cookie]"; ".cookie"; ".name"],
         "field not present");
        (["http_filters[0]"; ".session_state"; ".typed_config";
          ".value[bad_cookie]"; ".cookie"; ".ttl"; ".seconds"],
         "value must be in the range [0, 315576000000]")].
Proof. cbv zeta. split; reflexivity. Qed.

(** A JSON value where serialized bytes are expected. *)
Example xds_unparsed_override :
  @Xds.GenerateFilterConfigOverride Xds.fixture_decoder
    (Xds.mkExtension Xds.OverrideConfigProtoName
       (inr (Xds.Json_object [])) [])
  = (None,
     [Xds.AddError "could not parse stateful session filter override config"]).
Proof. reflexivity. Qed.

(** X19.  [GenerateServiceConfig] never fails: for every top-level
    configuration and every override, present or not, it returns the entry
    [stateful_session], and the entry dumps the configuration of the
    override when there is one and of the top level only when there is none.
    So a disabled per-route override wins over the configuration of the
    connection manager: the override that [GenerateFilterConfigOverride]
    returns for a message that parses and is disabled, whatever else the
    message holds, makes [GenerateServiceConfig] dump the empty object,
    whatever the top-level configuration holds. *)
Theorem disabled_override_empties_service_config {decoder : Xds.Decoder}
  (extension : Xds.XdsExtension) (bytes : string)
  (route : Xds.StatefulSessionPerRoute Xds.Any)
  (hcm_filter_config : Xds.FilterConfig) :
  Xds.value extension = inl bytes ->
  Xds.StatefulSessionPerRoute_parse bytes = Some route ->
  Xds.StatefulSessionPerRoute_disabled route = true ->
  (exists override,
     fst (Xds.GenerateFilterConfigOverride extension) = Some override
     /\ Xds.GenerateServiceConfig hcm_filter_config (Some override)
        = StatusOr_ok
            (Xds.mkEntry "stateful_session" (Xds.Dump (Xds.Json_object []))))
  /\ Xds.GenerateServiceConfig hcm_filter_config None
     = StatusOr_ok
         (Xds.mkEntry "stateful_session"
            (Xds.Dump (Xds.config hcm_filter_config)))
  /\ (forall top_level filter_config_override,
        exists entry,
          Xds.GenerateServiceConfig top_level filter_config_override
          = StatusOr_ok entry
          /\ Xds.service_config_field_name entry = "stateful_session"
          /\ (forall override,
                filter_config_override = Some override ->
                Xds.element entry = Xds.Dump (Xds.config override))
          /\ (filter_config_override = None ->
              Xds.element entry = Xds.Dump (Xds.config top_level))).
Proof.
  intros Hvalue Hparse Hdisabled. split; [| split; [reflexivity |]].
  - unfold Xds.GenerateFilterConfigOverride.
    rewrite Hvalue, Hparse, Hdisabled. cbn. eexists. split; reflexivity.
  - intros top_level filter_config_override. eexists.
    split; [reflexivity |]. split; [reflexivity |]. cbn [Xds.element].
    split.
    + intros override ->. reflexivity.
    + intros ->. reflexivity.
Qed.

(** The disabled override of the instance, which holds a stateful session
    without session state, over a top-level configuration with a cookie:
    the entry dumps the empty object, where without the override it dumps
    the cookie. *)
Lemma disabled_override_empties_service_config_witness :
  (exists override,
     fst (@Xds.GenerateFilterConfigOverride Xds.fixture_decoder
            (Xds.mkExtension Xds.OverrideConfigProtoName (inl "disabled") []))
     = Some override
     /\ @Xds.GenerateServiceConfig Xds.fixture_decoder
          (Xds.mkFilterConfig Xds.ConfigProtoName
             (Xds.Json_object [("name", Xds.Json_string "sid")]))
          (Some override)
        = StatusOr_ok (Xds.mkEntry "stateful_session" "{}"))
  /\ @Xds.GenerateServiceConfig Xds.fixture_decoder
       (Xds.mkFilterConfig Xds.ConfigProtoName
          (Xds.Json_object [("name", Xds.Json_string "sid")]))
       None
     = StatusOr_ok (Xds.mkEntry "stateful_session" "{name:'sid';}").
Proof.
  pose proof
    (@disabled_override_empties_service_config Xds.fixture_decoder
       (Xds.mkExtension Xds.OverrideConfigProtoName (inl "disabled") [])
       "disabled" (Xds.mkPerRoute true (Some (Xds.mkStatefulSession None)))
       (Xds.mkFilterConfig Xds.ConfigProtoName
          (Xds.Json_object [("name", Xds.Json_string "sid")]))
       eq_refl eq_refl eq_refl) as [Hoverride [Hnone _]].
  split; [exact Hoverride | exact Hnone].
Defined.
